(** * Accessible learning resources: catalog, comments and reports

    A shallow embedding of the state logic of the two React applications of
    the repository:

    - [Resources]   embeds [src/index.tsx]: resources that carry their own
      download counter and their own comment list;
    - [Experiences] embeds the second application ([part_000]): experiences
      with nested downloadable files and one global comment list.

    React state is modelled by explicit state passing: every handler is a
    function from the component state (and the readings it takes from the
    runtime: clock, collaborator outcome) to the next component state.
    A setter called with an updater ([setResources(prev => ...)]) is the
    updater applied to the current state.

    Conventions.
    - A JavaScript string is the list of its UTF-16 code units.
    - A download counter is a [JS.number]: an integer that a double holds
      exactly, that is one with at most 53 significant bits.  The sum of
      two numbers is the exact sum rounded to the nearest such integer,
      ties to the even significand, as the runtime adds doubles: below
      2^53 in magnitude every integer is a number and [+ 1] is exact, from
      2^53 on it is not.  The exponent is not bounded: the development
      does not speak about sums of 2^1024 and more, which the runtime
      gives as [Infinity].
    - An id or a clock reading that is a [number] in the source is an
      integer of [Z]; [toString] is the decimal numeral. *)

From Stdlib Require Import ZArith NArith List String Ascii Bool Lia.
From Stdlib Require Import DecimalZ Permutation Sorted.
Import ListNotations.

Set Implicit Arguments.

(* ------------------------------------------------------------------ *)
(** ** The JavaScript runtime functions the handlers use *)

Module JS.

(** A string value: its UTF-16 code units. *)
Definition jsstring := list N.

(** Code units from the UTF-8 bytes of a literal of this file, so that
    literals read as they do in the source. *)
Fixpoint utf16_of_utf8 (bs : list N) : jsstring :=
  match bs with
  | [] => []
  | b0 :: t0 =>
    if (b0 <? 128)%N then b0 :: utf16_of_utf8 t0 else
    match t0 with
    | [] => [b0]
    | b1 :: t1 =>
      if (b0 <? 224)%N then
        N.lor (N.shiftl (N.land b0 31) 6) (N.land b1 63) :: utf16_of_utf8 t1
      else
      match t1 with
      | [] => [b0; b1]
      | b2 :: t2 =>
        if (b0 <? 240)%N then
          N.lor (N.shiftl (N.land b0 15) 12)
                (N.lor (N.shiftl (N.land b1 63) 6) (N.land b2 63))
            :: utf16_of_utf8 t2
        else
        match t2 with
        | [] => [b0; b1; b2]
        | b3 :: t3 =>
          let cp := N.lor (N.shiftl (N.land b0 7) 18)
                   (N.lor (N.shiftl (N.land b1 63) 12)
                   (N.lor (N.shiftl (N.land b2 63) 6) (N.land b3 63))) in
          let v := (cp - 65536)%N in
          (55296 + N.shiftr v 10)%N :: (56320 + N.land v 1023)%N
            :: utf16_of_utf8 t3
        end
      end
    end
  end.

Definition lit (s : string) : jsstring :=
  utf16_of_utf8 (map (fun b => N_of_ascii (ascii_of_byte b)) (list_byte_of_string s)).

Definition LF : N := 10.
Definition QUOTE : N := 34.
Definition COMMA : N := 44.

(** [a === b] on strings. *)
Definition str_eqb (a b : jsstring) : bool :=
  if list_eq_dec N.eq_dec a b then true else false.

(** ECMAScript WhiteSpace and LineTerminator code points, the set that
    [String.prototype.trim] strips. *)
Definition isWhiteSpace (c : N) : bool :=
  ((c =? 9) || (c =? 10) || (c =? 11) || (c =? 12) || (c =? 13)
   || (c =? 32) || (c =? 160) || (c =? 5760)
   || ((8192 <=? c) && (c <=? 8202))
   || (c =? 8232) || (c =? 8233) || (c =? 8239) || (c =? 8287)
   || (c =? 12288) || (c =? 65279))%N.

Fixpoint trimStart (s : jsstring) : jsstring :=
  match s with
  | [] => []
  | c :: t => if isWhiteSpace c then trimStart t else s
  end.

Definition trimEnd (s : jsstring) : jsstring := rev (trimStart (rev s)).

(** [s.trim()] *)
Definition trim (s : jsstring) : jsstring := trimEnd (trimStart s).

(** Empty, or white space only. *)
Definition blank (s : jsstring) : bool := forallb isWhiteSpace s.

(** Truthiness of a string: the empty string is the only falsy one. *)
Definition truthy (s : jsstring) : bool :=
  match s with [] => false | _ :: _ => true end.

(** [a || b] on strings. *)
Definition or_else (a b : jsstring) : jsstring := if truthy a then a else b.

(** Decimal digits of a numeral, most significant first. *)
Fixpoint digits (d : Decimal.uint) : jsstring :=
  match d with
  | Decimal.Nil => []
  | Decimal.D0 d => 48%N :: digits d
  | Decimal.D1 d => 49%N :: digits d
  | Decimal.D2 d => 50%N :: digits d
  | Decimal.D3 d => 51%N :: digits d
  | Decimal.D4 d => 52%N :: digits d
  | Decimal.D5 d => 53%N :: digits d
  | Decimal.D6 d => 54%N :: digits d
  | Decimal.D7 d => 55%N :: digits d
  | Decimal.D8 d => 56%N :: digits d
  | Decimal.D9 d => 57%N :: digits d
  end.

(** [n.toString()] and the conversion of [${n}] for an integer [n]. *)
Definition toString (n : Z) : jsstring :=
  match Z.to_int n with
  | Decimal.Pos d => digits d
  | Decimal.Neg d => 45%N :: digits d
  end.

(** [s.replace] with the global pattern matching one double quote and the
    replacement made of two: every double quote is doubled. *)
Definition doubleQuotes (s : jsstring) : jsstring :=
  flat_map (fun c => if (c =? QUOTE)%N then [QUOTE; QUOTE] else [c]) s.

(** [xs.join(sep)] *)
Fixpoint join (sep : jsstring) (xs : list jsstring) : jsstring :=
  match xs with
  | [] => []
  | [x] => x
  | x :: rest => x ++ sep ++ join sep rest
  end.

(** 2^53: up to it every integer is a double. *)
Definition two53 : Z := 9007199254740992.

(** The double nearest to a non-negative integer [a]: [a] itself below
    2^53; above, the nearest multiple of [p = 2^(log2 a - 52)], which
    leaves 53 significant bits, the even one of the two when [a] is half
    way. *)
Definition roundPos (a : Z) : Z :=
  if (a <? two53)%Z then a else
  let p := (2 ^ (Z.log2 a - 52))%Z in
  let q := (a / p)%Z in
  let r := (a mod p)%Z in
  if (2 * r <? p)%Z then (q * p)%Z
  else if (p <? 2 * r)%Z then ((q + 1) * p)%Z
  else if Z.even q then (q * p)%Z else ((q + 1) * p)%Z.

(** Round to nearest, ties to even, of an integer of either sign. *)
Definition roundDouble (z : Z) : Z :=
  if (z <? 0)%Z then (- roundPos (- z))%Z else roundPos z.

(** The integers that a double holds exactly. *)
Definition isDouble (z : Z) : bool := (roundDouble z =? z)%Z.

(** An integer-valued [number]. *)
Record number := { toZ :> Z; toZ_ok : isDouble toZ = true }.

Definition zero : number := {| toZ := 0; toZ_ok := eq_refl |}.

(** The number nearest to the integer [z].  The second branch is never
    taken: a rounded integer is a double ([roundDouble_idem]). *)
Definition num (z : Z) : number :=
  match bool_dec (isDouble (roundDouble z)) true with
  | left ok => {| toZ := roundDouble z; toZ_ok := ok |}
  | right _ => zero
  end.

(** [a + b] on numbers. *)
Definition jsAdd (a b : number) : number := num (toZ a + toZ b).

(** [Number.isSafeInteger]: magnitude below 2^53. *)
Definition safe (z : Z) : Prop := (- two53 < z < two53)%Z.

(** A thrown value, as far as the handlers look at it (they do not). *)
Record Error := { errName : jsstring; errMessage : jsstring }.

(** [s.split(sep)] for a separator of one code unit: the pieces between
    the occurrences of [sep], the empty string giving one empty piece. *)
Fixpoint splitOn (sep : N) (s : jsstring) : list jsstring :=
  match s with
  | [] => [[]]
  | c :: t =>
    if (c =? sep)%N then [] :: splitOn sep t
    else match splitOn sep t with
         | [] => [[c]]
         | l :: ls => (c :: l) :: ls
         end
  end.

End JS.

Import JS.

(* ------------------------------------------------------------------ *)
(** ** [src/index.tsx]: resources with their own counter and comments *)

Module Resources.

Record Comment := {
  comment_id : jsstring;
  author : jsstring;
  text : jsstring;
  date : jsstring
}.

Inductive ResourceType := pdf | audio.

Definition typeName (t : ResourceType) : jsstring :=
  match t with pdf => lit "pdf" | audio => lit "audio" end.

Record Resource := {
  id : jsstring;
  title : jsstring;
  description : jsstring;
  type : ResourceType;
  url : jsstring;
  downloadCount : number;
  comments : list Comment
}.

(** [{ ...r, downloadCount: n }] *)
Definition with_downloadCount (r : Resource) (n : number) : Resource :=
  {| id := id r; title := title r; description := description r;
     type := type r; url := url r; downloadCount := n;
     comments := comments r |}.

(** [{ ...r, comments: cs }] *)
Definition with_comments (r : Resource) (cs : list Comment) : Resource :=
  {| id := id r; title := title r; description := description r;
     type := type r; url := url r; downloadCount := downloadCount r;
     comments := cs |}.

(** One entry of the data summary sent to the text-generation service. *)
Record SummaryEntry := {
  sum_title : jsstring;
  sum_type : ResourceType;
  sum_downloads : Z;
  sum_recentComments : list jsstring
}.

(** The call [ai.models.generateContent({model, contents})]: the model
    name and the data the prompt template embeds. *)
Record Request := {
  req_model : jsstring;
  req_data : list SummaryEntry
}.

(** What the collaborator does: the client constructor may throw; the
    awaited call rejects, resolves with a response (whose [text] may be
    undefined), or never settles ([None]): no timeout is set. *)
Record Service := {
  newGoogleGenAI : option Error;
  generateContent : Request -> option (Error + option jsstring)
}.

(** State of the [App] component, and what it did to the outside: the
    alerts shown, the console lines written, the requests sent. *)
Record App := {
  resources : list Resource;
  showStats : bool;
  aiAnalysis : option jsstring;
  isAnalyzing : bool;
  alerts : list jsstring;
  console : list (jsstring * Error);
  requests : list Request
}.

Definition setResources (f : list Resource -> list Resource) (s : App) : App :=
  {| resources := f (resources s); showStats := showStats s;
     aiAnalysis := aiAnalysis s; isAnalyzing := isAnalyzing s;
     alerts := alerts s; console := console s; requests := requests s |}.

Definition setAiAnalysis (v : option jsstring) (s : App) : App :=
  {| resources := resources s; showStats := showStats s;
     aiAnalysis := v; isAnalyzing := isAnalyzing s;
     alerts := alerts s; console := console s; requests := requests s |}.

Definition setIsAnalyzing (b : bool) (s : App) : App :=
  {| resources := resources s; showStats := showStats s;
     aiAnalysis := aiAnalysis s; isAnalyzing := b;
     alerts := alerts s; console := console s; requests := requests s |}.

Definition alert (msg : jsstring) (s : App) : App :=
  {| resources := resources s; showStats := showStats s;
     aiAnalysis := aiAnalysis s; isAnalyzing := isAnalyzing s;
     alerts := alerts s ++ [msg]; console := console s;
     requests := requests s |}.

Definition console_error (msg : jsstring) (e : Error) (s : App) : App :=
  {| resources := resources s; showStats := showStats s;
     aiAnalysis := aiAnalysis s; isAnalyzing := isAnalyzing s;
     alerts := alerts s; console := console s ++ [(msg, e)];
     requests := requests s |}.

Definition send (q : Request) (s : App) : App :=
  {| resources := resources s; showStats := showStats s;
     aiAnalysis := aiAnalysis s; isAnalyzing := isAnalyzing s;
     alerts := alerts s; console := console s;
     requests := requests s ++ [q] |}.

(** The two clock readings of [handleAddComment]: [Date.now()] and the
    day part of [new Date().toISOString()]. *)
Record Clock := { now : Z; isoDate : jsstring }.

Definition handleDownload (id0 title0 : jsstring) (s : App) : App :=
  alert (lit "Descargando recurso: " ++ title0)
    (setResources
       (fun prev => map (fun r =>
          if str_eqb (id r) id0
          then with_downloadCount r (jsAdd (downloadCount r) (num 1))
          else r) prev) s).

Definition newCommentOf (clk : Clock) (text0 author0 : jsstring) : Comment :=
  {| comment_id := toString (now clk);
     author := or_else author0 (lit "Usuario");
     text := text0;
     date := isoDate clk |}.

Definition handleAddComment (clk : Clock) (id0 text0 author0 : jsstring)
    (s : App) : App :=
  let newComment := newCommentOf clk text0 author0 in
  setResources
    (fun prev => map (fun r =>
       if str_eqb (id r) id0
       then with_comments r (newComment :: comments r)
       else r) prev) s.

Definition headers : jsstring :=
  lit "ID,Titulo,Tipo,Descargas,Total_Comentarios" ++ [LF].

Definition row (r : Resource) : jsstring :=
  id r ++ [COMMA] ++ [QUOTE] ++ title r ++ [QUOTE] ++ [COMMA]
    ++ typeName (type r) ++ [COMMA] ++ toString (downloadCount r)
    ++ [COMMA] ++ toString (Z.of_nat (List.length (comments r))).

(** The text [exportStats] builds, [csvContent]; the handler then hands
    [encodeURI(csvContent)] to an anchor element that saves it as
    [reporte_accesibilidad.csv]. *)
Definition exportStats (s : App) : jsstring :=
  let rows := join [LF] (map row (resources s)) in
  lit "data:text/csv;charset=utf-8," ++ headers ++ rows.

Definition fallback : jsstring :=
  lit "Error de conexión con el asistente. Por favor verifica la configuración.".

Definition dataSummary (rs : list Resource) : list SummaryEntry :=
  map (fun r =>
    {| sum_title := title r; sum_type := type r;
       sum_downloads := downloadCount r;
       sum_recentComments := map text (firstn 3 (comments r)) |}) rs.

(** [analyzeWithGemini] up to its [await]: the two setters, then the
    [try] block until the call is sent.  The result tells whether the
    function is now suspended on the call or already threw. *)
Definition analyzeStart (svc : Service) (s : App) : App * (Error + Request) :=
  let s := setAiAnalysis None (setIsAnalyzing true s) in
  match newGoogleGenAI svc with
  | Some e => (s, inl e)
  | None =>
    let q := {| req_model := lit "gemini-2.5-flash";
                req_data := dataSummary (resources s) |} in
    (send q s, inr q)
  end.

(** [analyzeWithGemini] from the point where the [try] block is left:
    [outcome] is the error thrown in it, or the [text] of the response.
    [s] is the component state at that time. *)
Definition analyzeSettle (outcome : Error + option jsstring) (s : App) : App :=
  let s :=
    match outcome with
    | inr txt => setAiAnalysis txt s
    | inl e =>
      setAiAnalysis (Some fallback)
        (console_error (lit "Error calling Gemini:") e s)
    end in
  setIsAnalyzing false s.

(** The whole handler when nothing else runs while it is suspended.  When
    the call never settles the handler stays suspended at its [await]:
    neither the [catch] nor the [finally] block runs. *)
Definition analyzeWithGemini (svc : Service) (s : App) : App :=
  match analyzeStart svc s with
  | (s1, inl e) => analyzeSettle (inl e) s1
  | (s1, inr q) =>
    match generateContent svc q with
    | Some outcome => analyzeSettle outcome s1
    | None => s1
    end
  end.

(** State of one [ResourceCard]. *)
Record Card := {
  showComments : bool;
  newComment : jsstring;
  authorName : jsstring
}.

Definition setNewComment (v : jsstring) (c : Card) : Card :=
  {| showComments := showComments c; newComment := v;
     authorName := authorName c |}.

(** [handleSubmitComment] of the card that shows [resource], with
    [onAddComment] bound to [handleAddComment] as [App] does. *)
Definition handleSubmitComment (clk : Clock) (resource : Resource)
    (cs : Card * App) : Card * App :=
  let (c, s) := cs in
  if negb (truthy (trim (newComment c))) then cs
  else (setNewComment [] c,
        handleAddComment clk (id resource) (newComment c) (authorName c) s).

Definition INITIAL_RESOURCES : list Resource :=
  [ {| id := lit "1"; title := lit "Guía de Pautas WCAG 2.1";
       description := lit "Documento técnico completo sobre los principios de percepción, operación, comprensión y robustez para accesibilidad web.";
       type := pdf; url := lit "#"; downloadCount := num 156;
       comments := [ {| comment_id := lit "c1"; author := lit "Dev_Inclusivo";
                        text := lit "Esencial para entender los criterios de conformidad A y AA.";
                        date := lit "2023-11-10" |} ] |};
    {| id := lit "2"; title := lit "Podcast: Diseño Universal para el Aprendizaje (DUA)";
       description := lit "Episodio 01: Estrategias para eliminar barreras en el aula y crear currículos flexibles. Duración: 35 min.";
       type := audio; url := lit "#"; downloadCount := num 98;
       comments := [ {| comment_id := lit "c2"; author := lit "Profe_Ana";
                        text := lit "Muy útil la sección sobre múltiples formas de representación.";
                        date := lit "2023-11-12" |} ] |};
    {| id := lit "3"; title := lit "Manual de Lectura Fácil";
       description := lit "Metodologías para la adaptación de textos y creación de contenidos cognitivamente accesibles.";
       type := pdf; url := lit "#"; downloadCount := num 210;
       comments := [] |} ].

(** The component state at start-up when nothing was stored. *)
Definition initial : App :=
  {| resources := INITIAL_RESOURCES; showStats := false;
     aiAnalysis := None; isAnalyzing := false;
     alerts := []; console := []; requests := [] |}.

(** The three figures of the statistics panel.  The first two are
    [resources.reduce((acc, r) => acc + ..., 0)]. *)
Definition totalDownloads (rs : list Resource) : number :=
  fold_left (fun acc r => jsAdd acc (downloadCount r)) rs (num 0).

Definition totalInteractions (rs : list Resource) : Z :=
  fold_left (fun acc r => (acc + Z.of_nat (List.length (comments r)))%Z) rs 0%Z.

(** [resources.reduce((prev, current) => (prev.downloadCount >
    current.downloadCount) ? prev : current)], a [reduce] without initial
    value: it starts from the first element, and throws a [TypeError] on
    the empty array ([None]). *)
Definition mostRequested (rs : list Resource) : option Resource :=
  match rs with
  | [] => None
  | first :: rest =>
    Some (fold_left (fun prev current =>
            if (downloadCount prev >? downloadCount current)%Z
            then prev else current) rest first)
  end.

Definition setShowStats (b : bool) (s : App) : App :=
  {| resources := resources s; showStats := b;
     aiAnalysis := aiAnalysis s; isAnalyzing := isAnalyzing s;
     alerts := alerts s; console := console s; requests := requests s |}.

(** The click handler of the header button, [setShowStats(!showStats)]. *)
Definition toggleStats (s : App) : App := setShowStats (negb (showStats s)) s.

(** The paragraphs of the result area, [aiAnalysis && ...
    aiAnalysis.split(LF).map(...)]: nothing for [null] and for the empty
    string, which are falsy. *)
Definition paragraphs (s : App) : list jsstring :=
  match aiAnalysis s with
  | None => []
  | Some t => if truthy t then splitOn LF t else []
  end.

End Resources.

(* ------------------------------------------------------------------ *)
(** ** The second application: experiences with nested files and one
       global comment list *)

Module Experiences.

Record DownloadableFile := {
  file_id : jsstring;
  label : jsstring;
  filename : jsstring;
  count : number
}.

Record Experience := {
  id : Z;
  title : jsstring;
  audioSrc : jsstring;
  files : list DownloadableFile
}.

(** [email] is declared optional: [None] is the absent field. *)
Record Comment := {
  comment_id : jsstring;
  author : jsstring;
  email : option jsstring;
  text : jsstring;
  date : jsstring
}.

(** [{ ...f, count: n }] *)
Definition with_count (f : DownloadableFile) (n : number) : DownloadableFile :=
  {| file_id := file_id f; label := label f; filename := filename f;
     count := n |}.

(** [{ ...exp, files: fs }] *)
Definition with_files (e : Experience) (fs : list DownloadableFile) : Experience :=
  {| id := id e; title := title e; audioSrc := audioSrc e; files := fs |}.

(** The [summary] object that the prompt embeds. *)
Record Summary := {
  total_downloads : Z;
  total_comments : Z;
  top_files : list jsstring;
  latest_comments : list jsstring
}.

Record Request := {
  req_model : jsstring;
  req_data : Summary
}.

(** As in the first application: the awaited call may never settle
    ([None]). *)
Record Service := {
  newGoogleGenAI : option Error;
  generateContent : Request -> option (Error + option jsstring)
}.

(** State of the [App] component, the alerts shown and the requests
    sent. *)
Record App := {
  experiences : list Experience;
  comments : list Comment;
  showAdmin : bool;
  aiAnalysis : option jsstring;
  isAnalyzing : bool;
  alerts : list jsstring;
  requests : list Request
}.

Definition setExperiences (f : list Experience -> list Experience) (s : App) : App :=
  {| experiences := f (experiences s); comments := comments s;
     showAdmin := showAdmin s; aiAnalysis := aiAnalysis s;
     isAnalyzing := isAnalyzing s; alerts := alerts s;
     requests := requests s |}.

Definition setComments (cs : list Comment) (s : App) : App :=
  {| experiences := experiences s; comments := cs;
     showAdmin := showAdmin s; aiAnalysis := aiAnalysis s;
     isAnalyzing := isAnalyzing s; alerts := alerts s;
     requests := requests s |}.

Definition setAiAnalysis (v : option jsstring) (s : App) : App :=
  {| experiences := experiences s; comments := comments s;
     showAdmin := showAdmin s; aiAnalysis := v;
     isAnalyzing := isAnalyzing s; alerts := alerts s;
     requests := requests s |}.

Definition setIsAnalyzing (b : bool) (s : App) : App :=
  {| experiences := experiences s; comments := comments s;
     showAdmin := showAdmin s; aiAnalysis := aiAnalysis s;
     isAnalyzing := b; alerts := alerts s; requests := requests s |}.

Definition alert (msg : jsstring) (s : App) : App :=
  {| experiences := experiences s; comments := comments s;
     showAdmin := showAdmin s; aiAnalysis := aiAnalysis s;
     isAnalyzing := isAnalyzing s; alerts := alerts s ++ [msg];
     requests := requests s |}.

Definition send (q : Request) (s : App) : App :=
  {| experiences := experiences s; comments := comments s;
     showAdmin := showAdmin s; aiAnalysis := aiAnalysis s;
     isAnalyzing := isAnalyzing s; alerts := alerts s;
     requests := requests s ++ [q] |}.

(** The two clock readings of [handleAddComment]: [Date.now()] and
    [new Date().toLocaleString()]. *)
Record Clock := { now : Z; localeString : jsstring }.

Definition handleDownload (expId : Z) (fileId : jsstring) (s : App) : App :=
  setExperiences
    (fun prev => map (fun exp =>
       if negb (Z.eqb (id exp) expId) then exp
       else with_files exp
              (map (fun f =>
                 if str_eqb (file_id f) fileId
                 then with_count f (jsAdd (count f) (num 1)) else f)
                (files exp)))
       prev) s.

(** The click handler of a download link, rendered for each file [file]
    of each experience [exp] of the list. *)
Definition clickDownload (exp : Experience) (file : DownloadableFile)
    (s : App) : App :=
  alert (lit "Simulando descarga de: " ++ filename file)
    (handleDownload (id exp) (file_id file) s).

Definition newCommentOf (clk : Clock) (name0 email0 text0 : jsstring) : Comment :=
  {| comment_id := toString (now clk);
     author := name0;
     email := Some email0;
     text := text0;
     date := localeString clk |}.

(** The list that the setter receives is built from [comments] as the
    render that made the handler saw it: the current list, when each
    submission is handled after the previous one was rendered. *)
Definition handleAddComment (clk : Clock) (name0 email0 text0 : jsstring)
    (s : App) : App :=
  let newComment := newCommentOf clk name0 email0 text0 in
  setComments (newComment :: comments s) s.

Definition quoted (v : jsstring) : jsstring := [QUOTE] ++ v ++ [QUOTE].

(** The line appended for the file [f] of the experience [exp]. *)
Definition downloadRow (exp : Experience) (f : DownloadableFile) : jsstring :=
  quoted (title exp) ++ [COMMA] ++ quoted (filename f) ++ [COMMA]
    ++ toString (count f) ++ [LF].

(** The line appended for the comment [c]. *)
Definition commentRow (c : Comment) : jsstring :=
  quoted (date c) ++ [COMMA] ++ quoted (author c) ++ [COMMA]
    ++ quoted (match email c with Some e => or_else e [] | None => [] end)
    ++ [COMMA] ++ quoted (doubleQuotes (text c)) ++ [LF].

(** The text [exportData] builds, [csvContent]; the handler then hands
    [encodeURI(csvContent)] to an anchor element that saves it as
    [reporte_experiencias.csv]. *)
Definition exportData (s : App) : jsstring :=
  let csvContent := lit "data:text/csv;charset=utf-8," in
  let csvContent := csvContent ++ lit "--- REPORTE DE DESCARGAS ---" ++ [LF] in
  let csvContent := csvContent ++ lit "Experiencia,Archivo,Descargas" ++ [LF] in
  let csvContent :=
    fold_left (fun acc exp =>
      fold_left (fun acc f => acc ++ downloadRow exp f) (files exp) acc)
      (experiences s) csvContent in
  let csvContent :=
    csvContent ++ [LF] ++ lit "--- REPORTE DE COMENTARIOS ---" ++ [LF] in
  let csvContent := csvContent ++ lit "Fecha,Autor,Email,Comentario" ++ [LF] in
  fold_left (fun acc c => acc ++ commentRow c) (comments s) csvContent.

Definition fallback : jsstring :=
  lit "Error conectando con la IA. Asegúrate de tener conexión a internet.".

(** [xs.sort((a, b) => b.count - a.count)]: a stable sort, larger
    counts first.  The comparator is used by its sign, and the rounded
    difference of two numbers has the sign of their exact difference. *)
Fixpoint insertByCount (x : DownloadableFile) (l : list DownloadableFile) :=
  match l with
  | [] => [x]
  | y :: t => if (count y - count x <=? 0)%Z then x :: l
              else y :: insertByCount x t
  end.

Definition sortByCount (l : list DownloadableFile) : list DownloadableFile :=
  fold_right insertByCount [] l.

Definition totalDownloads (es : list Experience) : number :=
  fold_left (fun acc exp =>
    jsAdd acc (fold_left (fun a f => jsAdd a (count f)) (files exp) (num 0)))
    es (num 0).

Definition summaryOf (s : App) : Summary :=
  {| total_downloads := totalDownloads (experiences s);
     total_comments := Z.of_nat (List.length (comments s));
     top_files :=
       map (fun f => filename f ++ lit " (" ++ toString (count f) ++ lit ")")
           (firstn 3 (sortByCount (flat_map files (experiences s))));
     latest_comments := map text (firstn 5 (comments s)) |}.

(** [analyzeWithGemini] up to its [await]. *)
Definition analyzeStart (svc : Service) (s : App) : App * (Error + Request) :=
  let s := setAiAnalysis None (setIsAnalyzing true s) in
  match newGoogleGenAI svc with
  | Some e => (s, inl e)
  | None =>
    let q := {| req_model := lit "gemini-2.5-flash";
                req_data := summaryOf s |} in
    (send q s, inr q)
  end.

(** [analyzeWithGemini] from the point where the [try] block is left. *)
Definition analyzeSettle (outcome : Error + option jsstring) (s : App) : App :=
  let s :=
    match outcome with
    | inr txt => setAiAnalysis txt s
    | inl _ => setAiAnalysis (Some fallback) s
    end in
  setIsAnalyzing false s.

(** When the call never settles the handler stays suspended at its
    [await]. *)
Definition analyzeWithGemini (svc : Service) (s : App) : App :=
  match analyzeStart svc s with
  | (s1, inl e) => analyzeSettle (inl e) s1
  | (s1, inr q) =>
    match generateContent svc q with
    | Some outcome => analyzeSettle outcome s1
    | None => s1
    end
  end.

(** State of the [CommentForm]. *)
Record Form := {
  name : jsstring;
  formEmail : jsstring;
  formText : jsstring
}.

Definition emptyForm : Form := {| name := []; formEmail := []; formText := [] |}.

(** [handleSubmit] of the form, with [onSubmit] bound to
    [handleAddComment] as [App] does. *)
Definition handleSubmit (clk : Clock) (fs : Form * App) : Form * App :=
  let (f, s) := fs in
  if negb (truthy (trim (name f))) || negb (truthy (trim (formText f)))
  then fs
  else (emptyForm,
        handleAddComment clk (name f) (formEmail f) (formText f) s).

Definition INITIAL_EXPERIENCES : list Experience :=
  [ {| id := 1;
       title := lit "1. Escribe con tu voz: experimenta la accesibilidad con TalkBack";
       audioSrc := lit "exp1-audio.mp3";
       files :=
         [ {| file_id := lit "e1-f1"; label := lit "Descargar Guía Escrita";
              filename := lit "exp1-guia.pdf"; count := num 0 |};
           {| file_id := lit "e1-f2";
              label := lit "Descargar Plantilla de Observación Docente";
              filename := lit "exp1-observacion-docente.pdf"; count := num 0 |};
           {| file_id := lit "e1-f3";
              label := lit "Descargar Plantilla de Reflexión Estudiantil";
              filename := lit "exp1-reflexion-estudiante.pdf"; count := num 0 |} ] |};
    {| id := 2;
       title := lit "2. Descubre con tus oídos: explorando el mundo con Google Lens";
       audioSrc := lit "exp2-audio.mp3";
       files :=
         [ {| file_id := lit "e2-f1"; label := lit "Descargar Guía Escrita";
              filename := lit "exp2-guia.pdf"; count := num 0 |};
           {| file_id := lit "e2-f2";
              label := lit "Plantilla de Observación Docente";
              filename := lit "exp2-observacion-docente.pdf"; count := num 0 |};
           {| file_id := lit "e2-f3";
              label := lit "Plantilla de Reflexión Estudiantil";
              filename := lit "exp2-reflexion-estudiante.pdf"; count := num 0 |} ] |};
    {| id := 3;
       title := lit "3. Escucha para aprender: acceso a la información escrita con Lookout";
       audioSrc := lit "exp3-audio.mp3";
       files :=
         [ {| file_id := lit "e3-f1"; label := lit "Descargar Guía Escrita";
              filename := lit "exp3-guia.pdf"; count := num 0 |};
           {| file_id := lit "e3-f2";
              label := lit "Plantilla de Observación Docente";
              filename := lit "exp3-observacion-docente.pdf"; count := num 0 |};
           {| file_id := lit "e3-f3";
              label := lit "Plantilla de Reflexión Estudiantil";
              filename := lit "exp3-reflexion-estudiante.pdf"; count := num 0 |} ] |} ].

(** The component state at start-up when nothing was stored. *)
Definition initial : App :=
  {| experiences := INITIAL_EXPERIENCES; comments := [];
     showAdmin := false; aiAnalysis := None; isAnalyzing := false;
     alerts := []; requests := [] |}.

Definition setShowAdmin (b : bool) (s : App) : App :=
  {| experiences := experiences s; comments := comments s;
     showAdmin := b; aiAnalysis := aiAnalysis s;
     isAnalyzing := isAnalyzing s; alerts := alerts s;
     requests := requests s |}.

(** The click handler of the settings button, [setShowAdmin(!showAdmin)]. *)
Definition toggleAdmin (s : App) : App := setShowAdmin (negb (showAdmin s)) s.

(** The paragraphs of the result area, as in the first application. *)
Definition paragraphs (s : App) : list jsstring :=
  match aiAnalysis s with
  | None => []
  | Some t => if truthy t then splitOn LF t else []
  end.

End Experiences.

(* ------------------------------------------------------------------ *)
(** ** A reader of delimited text

    The reader of one record in the usual format of comma-separated
    values: fields separated by commas, a record ended by a line feed or
    by the end of the text; a field that starts with a double quote runs
    to its closing double quote, and two double quotes in it stand for
    one.  A [strict] reader refuses a double quote in a field that did
    not start with one, and anything but a comma or a line feed after a
    closing double quote; a lenient reader keeps such characters as
    data. *)

Module Csv.

Inductive Mode := FieldStart | Unquoted | Quoted | QuoteSeen.

(** [cur] is the current field, last character first; [done] the
    fields already read, last field first. *)
Fixpoint scan (strict : bool) (m : Mode) (cur : jsstring)
    (done : list jsstring) (s : jsstring) : option (list jsstring * jsstring) :=
  match s with
  | [] =>
    match m with
    | Quoted => None
    | _ => Some (rev (rev cur :: done), [])
    end
  | c :: t =>
    match m with
    | FieldStart =>
      if (c =? QUOTE)%N then scan strict Quoted [] done t
      else if (c =? COMMA)%N then scan strict FieldStart [] ([] :: done) t
      else if (c =? LF)%N then Some (rev ([] :: done), t)
      else scan strict Unquoted [c] done t
    | Unquoted =>
      if (c =? QUOTE)%N then
        if strict then None else scan strict Unquoted (c :: cur) done t
      else if (c =? COMMA)%N then scan strict FieldStart [] (rev cur :: done) t
      else if (c =? LF)%N then Some (rev (rev cur :: done), t)
      else scan strict Unquoted (c :: cur) done t
    | Quoted =>
      if (c =? QUOTE)%N then scan strict QuoteSeen cur done t
      else scan strict Quoted (c :: cur) done t
    | QuoteSeen =>
      if (c =? QUOTE)%N then scan strict Quoted (c :: cur) done t
      else if (c =? COMMA)%N then scan strict FieldStart [] (rev cur :: done) t
      else if (c =? LF)%N then Some (rev (rev cur :: done), t)
      else if strict then None else scan strict Unquoted (c :: cur) done t
    end
  end.

(** The fields of the first record of [s], and the text after it. *)
Definition readRecord (strict : bool) (s : jsstring)
    : option (list jsstring * jsstring) :=
  scan strict FieldStart [] [] s.

(** No double quote in [s]. *)
Definition quoteFree (s : jsstring) : bool :=
  forallb (fun c => negb (c =? QUOTE)%N) s.


(** No double quote, comma or line feed in [s]: a field that needs no
    quoting. *)
Definition plain (s : jsstring) : bool :=
  forallb (fun c => negb (c =? QUOTE)%N && negb (c =? COMMA)%N
                    && negb (c =? LF)%N) s.

End Csv.

(* ------------------------------------------------------------------ *)
(** ** Notions used to state the properties *)

Module R := Resources.
Module E := Experiences.

Definition bumpResource (id0 : jsstring) (r : R.Resource) : R.Resource :=
  if str_eqb (R.id r) id0
  then R.with_downloadCount r (jsAdd (R.downloadCount r) (num 1)) else r.

Definition bumpFile (fileId : jsstring) (f : E.DownloadableFile) : E.DownloadableFile :=
  if str_eqb (E.file_id f) fileId
  then E.with_count f (jsAdd (E.count f) (num 1)) else f.

Definition bumpExperience (expId : Z) (fileId : jsstring) (e : E.Experience) : E.Experience :=
  if negb (Z.eqb (E.id e) expId) then e
  else E.with_files e (map (bumpFile fileId) (E.files e)).

Definition consComment (id0 : jsstring) (nc : R.Comment) (r : R.Resource) : R.Resource :=
  if str_eqb (R.id r) id0 then R.with_comments r (nc :: R.comments r) else r.

(** The collaborator fails with [e]: the client constructor throws [e], or
    the call that the handler sends from the state [s] rejects with [e]. *)
Definition R_fails (svc : R.Service) (s : R.App) (e : Error) : Prop :=
  R.newGoogleGenAI svc = Some e \/
  (R.newGoogleGenAI svc = None /\
   R.generateContent svc
     {| R.req_model := lit "gemini-2.5-flash";
        R.req_data := R.dataSummary (R.resources s) |} = Some (inl e)).

Definition E_fails (svc : E.Service) (s : E.App) (e : Error) : Prop :=
  E.newGoogleGenAI svc = Some e \/
  (E.newGoogleGenAI svc = None /\
   E.generateContent svc
     {| E.req_model := lit "gemini-2.5-flash";
        E.req_data := E.summaryOf (E.setAiAnalysis None (E.setIsAnalyzing true s)) |}
   = Some (inl e)).

(** What the first application displays of its state. *)
Definition R_display (s : R.App) :=
  (R.resources s, R.showStats s, R.aiAnalysis s, R.isAnalyzing s).

(** One call of [handleAddComment] of the first application. *)
Record R_Add := {
  ra_clock : R.Clock;
  ra_target : jsstring;
  ra_text : jsstring;
  ra_author : jsstring
}.

(** One call of [handleAddComment] of the second application. *)
Record E_Add := {
  ea_clock : E.Clock;
  ea_name : jsstring;
  ea_email : jsstring;
  ea_text : jsstring
}.

Definition R_addAll (ops : list R_Add) (s : R.App) : R.App :=
  fold_left (fun s op =>
    R.handleAddComment (ra_clock op) (ra_target op) (ra_text op) (ra_author op) s)
    ops s.

Definition E_addAll (ops : list E_Add) (s : E.App) : E.App :=
  fold_left (fun s op =>
    E.handleAddComment (ea_clock op) (ea_name op) (ea_email op) (ea_text op) s)
    ops s.

(** The ids [ids] are pairwise distinct and none is the numeral of one of
    the clock readings [ts]. *)
Definition Fresh (ts : list Z) (ids : list jsstring) : Prop :=
  NoDup ids /\ forall t, In t ts -> ~ In (toString t) ids.

Definition quotedTitle : jsstring := lit "Guia " ++ [QUOTE] ++ lit "A" ++ [QUOTE].

Definition quotedFile : E.DownloadableFile :=
  {| E.file_id := lit "e4-f1"; E.label := lit "Descargar Guía Escrita";
     E.filename := lit "exp4-guia.pdf"; E.count := num 0 |}.

Definition quotedExperience : E.Experience :=
  {| E.id := 4; E.title := quotedTitle; E.audioSrc := lit "exp4-audio.mp3";
     E.files := [quotedFile] |}.

Definition quotedResource : R.Resource :=
  {| R.id := lit "4"; R.title := quotedTitle; R.description := lit "Guia";
     R.type := R.pdf; R.url := lit "#"; R.downloadCount := num 12;
     R.comments := [] |}.

Definition quotedCatalog : E.App :=
  {| E.experiences := [quotedExperience]; E.comments := [];
     E.showAdmin := true; E.aiAnalysis := None; E.isAnalyzing := false;
     E.alerts := []; E.requests := [] |}.

Definition quotedAuthorComment : E.Comment :=
  {| E.comment_id := lit "1730503740123";
     E.author := lit "Ana " ++ [QUOTE] ++ lit "Profe" ++ [QUOTE];
     E.email := Some []; E.text := lit "Muy util";
     E.date := lit "1/11/2024, 23:29:00" |}.

(** What can happen to the [App] component of the first application: a
    call of one of its handlers, by the component itself or by a card. *)
Inductive R_Event :=
| R_Download (id0 title0 : jsstring)
| R_AddComment (clk : R.Clock) (id0 text0 author0 : jsstring)
| R_ToggleStats
| R_AnalyzeStart (svc : R.Service)
| R_AnalyzeSettle (outcome : Error + option jsstring).

Definition R_step (s : R.App) (ev : R_Event) : R.App :=
  match ev with
  | R_Download id0 title0 => R.handleDownload id0 title0 s
  | R_AddComment clk id0 text0 author0 => R.handleAddComment clk id0 text0 author0 s
  | R_ToggleStats => R.toggleStats s
  | R_AnalyzeStart svc => fst (R.analyzeStart svc s)
  | R_AnalyzeSettle outcome => R.analyzeSettle outcome s
  end.

Definition R_run (evs : list R_Event) (s : R.App) : R.App := fold_left R_step evs s.

(** The same for the second application. *)
Inductive E_Event :=
| E_Download (expId : Z) (fileId : jsstring)
| E_Click (exp : E.Experience) (file : E.DownloadableFile)
| E_AddComment (clk : E.Clock) (name0 email0 text0 : jsstring)
| E_ToggleAdmin
| E_AnalyzeStart (svc : E.Service)
| E_AnalyzeSettle (outcome : Error + option jsstring).

Definition E_step (s : E.App) (ev : E_Event) : E.App :=
  match ev with
  | E_Download expId fileId => E.handleDownload expId fileId s
  | E_Click exp file => E.clickDownload exp file s
  | E_AddComment clk name0 email0 text0 => E.handleAddComment clk name0 email0 text0 s
  | E_ToggleAdmin => E.toggleAdmin s
  | E_AnalyzeStart svc => fst (E.analyzeStart svc s)
  | E_AnalyzeSettle outcome => E.analyzeSettle outcome s
  end.

Definition E_run (evs : list E_Event) (s : E.App) : E.App := fold_left E_step evs s.

(** The parts of a resource and of an experience that no handler
    writes. *)
Definition R_fixedPart (r : R.Resource) :=
  (R.id r, R.title r, R.description r, R.type r, R.url r).

Definition E_fixedPart (e : E.Experience) :=
  (E.id e, E.title e, E.audioSrc e,
   map (fun f => (E.file_id f, E.label f, E.filename f)) (E.files e)).

(** [r'] is [r] after some downloads and comments: a counter at least as
    large, and the earlier comments below the newer ones. *)
Definition R_grown (r r' : R.Resource) : Prop :=
  (R.downloadCount r <= R.downloadCount r')%Z /\
  exists newer, R.comments r' = newer ++ R.comments r.

Definition E_grown (e e' : E.Experience) : Prop :=
  Forall2 (fun f f' => (E.count f <= E.count f')%Z) (E.files e) (E.files e').





(** The pairs of the two nested loops of [exportData], in their order. *)
Definition E_pairs (es : list E.Experience) : list (E.Experience * E.DownloadableFile) :=
  flat_map (fun e => map (fun f => (e, f)) (E.files e)) es.


(** The number of files that a download with these identifiers
    matches. *)
Definition E_matches (expId : Z) (fileId : jsstring) (es : list E.Experience) : nat :=
  List.length (filter (fun ef => Z.eqb (E.id (fst ef)) expId
                                 && str_eqb (E.file_id (snd ef)) fileId)
                      (E_pairs es)).

Definition R_matches (id0 : jsstring) (rs : list R.Resource) : nat :=
  List.length (filter (fun r => str_eqb (R.id r) id0) rs).

(** Values for the examples: clock readings, a card of the third seed
    resource, forms, errors and failing collaborators. *)
Definition clockR : R.Clock :=
  {| R.now := 1730503740123; R.isoDate := lit "2024-11-01" |}.

Definition laterClockR : R.Clock :=
  {| R.now := 1730503799000; R.isoDate := lit "2024-11-01" |}.

Definition clockE : E.Clock :=
  {| E.now := 1730503740123; E.localeString := lit "1/11/2024, 23:29:00" |}.

Definition laterClockE : E.Clock :=
  {| E.now := 1730503799000; E.localeString := lit "1/11/2024, 23:29:59" |}.

Definition manual : R.Resource :=
  {| R.id := lit "3"; R.title := lit "Manual de Lectura Fácil";
     R.description := lit "Metodologías para la adaptación de textos y creación de contenidos cognitivamente accesibles.";
     R.type := R.pdf; R.url := lit "#"; R.downloadCount := num 210;
     R.comments := [] |}.

Definition cardAna : R.Card :=
  {| R.showComments := true; R.newComment := lit "Muy claro";
     R.authorName := lit "Ana" |}.

Definition cardAnonymous : R.Card :=
  {| R.showComments := true; R.newComment := lit "Muy claro";
     R.authorName := [] |}.

Definition cardBlank : R.Card :=
  {| R.showComments := true; R.newComment := [32; 9; 160]%N;
     R.authorName := lit "Ana" |}.

Definition formAna : E.Form :=
  {| E.name := lit "Ana"; E.formEmail := []; E.formText := lit "Muy útil" |}.

Definition formBlankText : E.Form :=
  {| E.name := lit "Ana"; E.formEmail := []; E.formText := [32; 10; 32]%N |}.

Definition formNoName : E.Form :=
  {| E.name := []; E.formEmail := []; E.formText := lit "Hola" |}.

Definition networkError : Error :=
  {| errName := lit "TypeError"; errMessage := lit "Failed to fetch" |}.

Definition quotaError : Error :=
  {| errName := lit "ApiError"; errMessage := lit "429" |}.

Definition rejectingService : R.Service :=
  {| R.newGoogleGenAI := None;
     R.generateContent := fun _ => Some (inl networkError) |}.

Definition unconfiguredService : E.Service :=
  {| E.newGoogleGenAI := Some quotaError;
     E.generateContent := fun _ => Some (inr None) |}.

Definition addAna : E_Add :=
  {| ea_clock := clockE; ea_name := lit "Ana"; ea_email := [];
     ea_text := lit "Muy útil" |}.

Definition addLuisLater : E_Add :=
  {| ea_clock := laterClockE; ea_name := lit "Luis"; ea_email := [];
     ea_text := lit "Gracias" |}.

Definition addLuisSameInstant : E_Add :=
  {| ea_clock := clockE; ea_name := lit "Luis"; ea_email := [];
     ea_text := lit "Gracias" |}.

Definition addToGuide : R_Add :=
  {| ra_clock := clockR; ra_target := lit "1"; ra_text := lit "Muy claro";
     ra_author := lit "Ana" |}.

Definition addToGuideLater : R_Add :=
  {| ra_clock := laterClockR; ra_target := lit "1"; ra_text := lit "Gracias";
     ra_author := [] |}.



(** A sequence of downloads, each given by its two identifiers. *)
Definition E_downloads (ds : list (Z * jsstring)) (s : E.App) : E.App :=
  fold_left (fun s d => E.handleDownload (fst d) (snd d) s) ds s.

(** A sequence of downloads from the cards of the given resources. *)
Definition R_downloads (rs : list R.Resource) (s : R.App) : R.App :=
  fold_left (fun s r => R.handleDownload (R.id r) (R.title r) s) rs s.

(** A catalog whose counter holds 2^53. *)
Definition saturatedCatalogR : R.App :=
  {| R.resources :=
       [ {| R.id := lit "4"; R.title := lit "Guia"; R.description := lit "Guia";
            R.type := R.pdf; R.url := lit "#";
            R.downloadCount := num 9007199254740992; R.comments := [] |} ];
     R.showStats := false; R.aiAnalysis := None; R.isAnalyzing := false;
     R.alerts := []; R.console := []; R.requests := [] |}.

Definition saturatedCatalogE : E.App :=
  {| E.experiences :=
       [ {| E.id := 4; E.title := lit "Guia"; E.audioSrc := lit "exp4-audio.mp3";
            E.files :=
              [ {| E.file_id := lit "e4-f1"; E.label := lit "Descargar";
                   E.filename := lit "exp4-guia.pdf";
                   E.count := num 9007199254740992 |} ] |} ];
     E.comments := []; E.showAdmin := false; E.aiAnalysis := None;
     E.isAnalyzing := false; E.alerts := []; E.requests := [] |}.

(** The sum of the counters as integers, without rounding. *)
Definition R_sum (rs : list R.Resource) : Z :=
  fold_right (fun r acc => (toZ (R.downloadCount r) + acc)%Z) 0%Z rs.

Definition E_filesSum (fs : list E.DownloadableFile) : Z :=
  fold_right (fun f acc => (toZ (E.count f) + acc)%Z) 0%Z fs.

Definition E_sum (es : list E.Experience) : Z :=
  fold_right (fun e acc => (E_filesSum (E.files e) + acc)%Z) 0%Z es.

(** Counters that are not negative. *)
Definition R_nonneg (rs : list R.Resource) : Prop :=
  Forall (fun r => (0 <= R.downloadCount r)%Z) rs.

Definition E_nonneg (es : list E.Experience) : Prop :=
  Forall (fun e => Forall (fun f => (0 <= E.count f)%Z) (E.files e)) es.

(* ------------------------------------------------------------------ *)
(** * Properties *)

(** ** The runtime functions on examples *)

Example lit_ascii : lit "Usuario" = [85; 115; 117; 97; 114; 105; 111]%N.
Proof. reflexivity. Qed.
Example lit_bmp : lit "ó€" = [243; 8364]%N.
Proof. reflexivity. Qed.
Example toString_ex : toString 1730503740123 = lit "1730503740123" /\ toString 0 = lit "0" /\ toString (-7) = lit "-7".
Proof. repeat split; reflexivity. Qed.
Example trim_ex : trim (lit "  a b ") = lit "a b" /\ trim [32; 160; 9; 8195]%N = [].
Proof. split; reflexivity. Qed.
Example csv_ex1 : Csv.readRecord true (lit "a,b c,,d" ++ [LF] ++ lit "x") = Some ([lit "a"; lit "b c"; []; lit "d"], lit "x").
Proof. reflexivity. Qed.
Example csv_ex2 : forall b, Csv.readRecord b ([QUOTE] ++ lit "a,b" ++ [QUOTE;QUOTE;LF;QUOTE;COMMA] ++ lit "z") = Some ([lit "a,b" ++ [QUOTE;LF]; lit "z"], []).
Proof. intros []; reflexivity. Qed.

(* ------------------------------------------------------------------ *)
(** ** Facts about the runtime functions *)

Lemma str_eqb_eq (a b : jsstring) : str_eqb a b = true <-> a = b.
Proof.
  unfold str_eqb. destruct (list_eq_dec N.eq_dec a b); split; congruence.
Qed.

Lemma str_eqb_neq (a b : jsstring) : str_eqb a b = false <-> a <> b.
Proof.
  unfold str_eqb. destruct (list_eq_dec N.eq_dec a b); split; congruence.
Qed.

Lemma trimStart_blank (s : jsstring) : blank s = true -> trimStart s = [].
Proof.
  induction s as [|c t IH]; simpl; [reflexivity|].
  destruct (isWhiteSpace c); simpl; [exact IH | discriminate].
Qed.

Lemma trimStart_not_blank (s : jsstring) :
  blank s = false -> blank (trimStart s) = false.
Proof.
  induction s as [|c t IH]; simpl; [discriminate|].
  destruct (isWhiteSpace c) eqn:E; simpl; [exact IH | now rewrite E].
Qed.

Lemma blank_app (a b : jsstring) : blank (a ++ b) = blank a && blank b.
Proof. apply forallb_app. Qed.

Lemma blank_rev (s : jsstring) : blank (rev s) = blank s.
Proof.
  induction s as [|c t IH]; simpl; [reflexivity|].
  rewrite blank_app, IH. simpl. rewrite andb_true_r. apply andb_comm.
Qed.

(** [!s.trim()] holds exactly of the strings that are empty or white
    space only. *)
Lemma trim_truthy (s : jsstring) : truthy (trim s) = negb (blank s).
Proof.
  unfold trim, trimEnd.
  destruct (blank s) eqn:B; simpl.
  - now rewrite (trimStart_blank s B).
  - assert (H : blank (trimStart (rev (trimStart s))) = false).
    { apply trimStart_not_blank. rewrite blank_rev.
      now apply trimStart_not_blank. }
    destruct (trimStart (rev (trimStart s))) as [|x l] eqn:E;
      [discriminate|].
    simpl. destruct (rev l ++ [x]) eqn:E2; [|reflexivity].
    now destruct (rev l).
Qed.

Lemma digits_inj (d d' : Decimal.uint) : digits d = digits d' -> d = d'.
Proof.
  revert d'.
  induction d; intros d' H; destruct d'; simpl in H;
    try discriminate; try reflexivity;
    injection H as H; f_equal; now apply IHd.
Qed.

Lemma digits_no_minus (d : Decimal.uint) (l : jsstring) :
  digits d <> 45%N :: l.
Proof. destruct d; simpl; congruence. Qed.

(** Two integers with the same numeral are the same. *)
Lemma toString_inj (a b : Z) : toString a = toString b -> a = b.
Proof.
  unfold toString. intros H. apply DecimalZ.to_int_inj.
  destruct (Z.to_int a) as [da|da], (Z.to_int b) as [db|db].
  - f_equal. now apply digits_inj.
  - now apply digits_no_minus in H.
  - symmetry in H. now apply digits_no_minus in H.
  - injection H as H. f_equal. now apply digits_inj.
Qed.

(** *** Numbers *)

Section Rounding.
Local Open Scope Z_scope.
Unset Implicit Arguments.

Lemma two53_pow : two53 = 2 ^ 53.
Proof. reflexivity. Qed.

(** The shape of a rounding from 2^53 on: [q] is the significand, [r]
    what is cut off, [m] the significand kept. *)
Lemma roundPos_shape a :
  two53 <= a ->
  exists e q r m,
    1 <= e /\ 2 ^ 52 <= q < 2 ^ 53 /\ 0 <= r < 2 ^ e /\
    a = q * 2 ^ e + r /\ roundPos a = m * 2 ^ e /\
    (m = q \/ m = q + 1) /\
    (m = q -> 2 * r <= 2 ^ e) /\ (m = q + 1 -> 2 ^ e <= 2 * r) /\
    (2 * r = 2 ^ e -> Z.even m = true) /\
    e = Z.log2 a - 52.
Proof.
  intros Ha. rewrite two53_pow in Ha.
  assert (Hpos : 0 < a) by (pose proof (Z.pow_pos_nonneg 2 53); lia).
  pose proof (Z.log2_spec a Hpos) as [Hlo Hhi].
  assert (Hl : 53 <= Z.log2 a).
  { apply Z.log2_le_pow2; lia. }
  set (e := Z.log2 a - 52). set (p := 2 ^ e).
  assert (He : 1 <= e) by (unfold e; lia).
  assert (Hp : 0 < p) by (apply Z.pow_pos_nonneg; lia).
  assert (Hlo' : 2 ^ 52 * p <= a).
  { unfold p. rewrite <- Z.pow_add_r by lia. replace (52 + e) with (Z.log2 a) by (unfold e; lia). exact Hlo. }
  assert (Hhi' : a < 2 ^ 53 * p).
  { unfold p. rewrite <- Z.pow_add_r by lia. replace (53 + e) with (Z.succ (Z.log2 a)) by (unfold e; lia). exact Hhi. }
  pose proof (Z.div_mod a p ltac:(lia)) as Hdm.
  pose proof (Z.mod_pos_bound a p Hp) as Hr.
  set (q := a / p) in *. set (r := a mod p) in *.
  assert (Hq : 2 ^ 52 <= q < 2 ^ 53).
  { split.
    - apply Z.div_le_lower_bound; lia.
    - apply Z.div_lt_upper_bound; lia. }
  unfold roundPos. rewrite two53_pow.
  destruct (Z.ltb_spec a (2 ^ 53)) as [Hlt|_]; [lia|].
  fold e. fold p. fold q. fold r.
  exists e, q, r.
  destruct (Z.ltb_spec (2 * r) p) as [H1|H1].
  - exists q. repeat split; try lia.
  - destruct (Z.ltb_spec p (2 * r)) as [H2|H2].
    + exists (q + 1). repeat split; try lia.
    + destruct (Z.even q) eqn:Ev.
      * exists q. repeat split; try lia. intros _; exact Ev.
      * exists (q + 1). repeat split; try lia.
        intros _. rewrite Z.even_add, Ev. reflexivity.
Qed.

Lemma roundPos_small a : a < two53 -> roundPos a = a.
Proof. intros H. unfold roundPos. destruct (Z.ltb_spec a two53); [reflexivity|lia]. Qed.

Lemma roundPos_big_ge a : two53 <= a -> 2 ^ Z.log2 a <= roundPos a <= 2 ^ (Z.log2 a + 1).
Proof.
  intros Ha. destruct (roundPos_shape a Ha) as (e & q & r & m & He & Hq & Hr & Hsplit & Hv & Hm & _ & _ & _ & Hee).
  rewrite Hv. replace (Z.log2 a) with (52 + e) by lia.
  replace (52 + e + 1) with (53 + e) by lia.
  rewrite !Z.pow_add_r by lia.
  assert (0 < 2 ^ e) by (apply Z.pow_pos_nonneg; lia).
  split; apply Z.mul_le_mono_nonneg_r; lia.
Qed.

Lemma log2_big b : two53 <= b -> 53 <= Z.log2 b.
Proof. intros H. rewrite two53_pow in H. apply Z.log2_le_pow2; [|exact H]. pose proof (Z.pow_pos_nonneg 2 53); lia. Qed.

Lemma roundPos_mono a b : 0 <= a -> a <= b -> roundPos a <= roundPos b.
Proof.
  intros Ha Hab.
  destruct (Z.lt_ge_cases b two53) as [Hb|Hb].
  - rewrite !roundPos_small by lia. exact Hab.
  - destruct (Z.lt_ge_cases a two53) as [Ha'|Ha'].
    + rewrite (roundPos_small a Ha').
      pose proof (roundPos_big_ge b Hb) as [H1 _].
      pose proof (log2_big b Hb).
      assert (2 ^ 53 <= 2 ^ Z.log2 b) by (apply Z.pow_le_mono_r; lia).
      rewrite two53_pow in Ha'. lia.
    + assert (Hl : Z.log2 a <= Z.log2 b) by (apply Z.log2_le_mono; exact Hab).
      destruct (Z.eq_dec (Z.log2 a) (Z.log2 b)) as [Heq|Hne].
      * destruct (roundPos_shape a Ha') as (e & q & r & m & He & Hq & Hr & Hsplit & Hv & Hm & Hd & Hu & Ht & Hee).
        destruct (roundPos_shape b Hb) as (e' & q' & r' & m' & He' & Hq' & Hr' & Hsplit' & Hv' & Hm' & Hd' & Hu' & Ht' & Hee').
        assert (Ee : e' = e) by lia. clear Hee'. subst e'.
        rewrite Hv, Hv'.
        assert (Hp : 0 < 2 ^ e) by (apply Z.pow_pos_nonneg; lia).
        apply Z.mul_le_mono_nonneg_r; [lia|].
        set (p := 2 ^ e) in *.
        assert (Hqq : q <= q') by nia.
        destruct (Z.eq_dec q q') as [Hq1|Hq1].
        -- subst q'. assert (r <= r') by lia.
           destruct Hm as [->| ->], Hm' as [->| ->]; try lia.
           specialize (Hu eq_refl). specialize (Hd' eq_refl).
           assert (E1 : 2 * r = p) by lia. assert (E2 : 2 * r' = p) by lia.
           specialize (Ht E1). specialize (Ht' E2).
           rewrite Z.even_add in Ht. rewrite Ht' in Ht. discriminate.
        -- lia.
      * pose proof (roundPos_big_ge a Ha') as [_ H1].
        pose proof (roundPos_big_ge b Hb) as [H2 _].
        assert (2 ^ (Z.log2 a + 1) <= 2 ^ Z.log2 b) by (apply Z.pow_le_mono_r; lia).
        lia.
Qed.

Lemma roundPos_nonneg a : 0 <= a -> 0 <= roundPos a.
Proof.
  intros Ha. destruct (Z.lt_ge_cases a two53) as [H|H].
  - now rewrite roundPos_small.
  - pose proof (roundPos_big_ge a H) as [H1 _].
    pose proof (Z.pow_nonneg 2 (Z.log2 a)). lia.
Qed.

Lemma roundPos_idem a : 0 <= a -> roundPos (roundPos a) = roundPos a.
Proof.
  intros Ha. destruct (Z.lt_ge_cases a two53) as [H|H].
  - rewrite (roundPos_small a H). now apply roundPos_small.
  - destruct (roundPos_shape a H) as (e & q & r & m & He & Hq & Hr & Hsplit & Hv & Hm & _ & _ & _ & Hee).
    assert (Hp : 0 < 2 ^ e) by (apply Z.pow_pos_nonneg; lia).
    assert (Hm' : 2 ^ 52 <= m <= 2 ^ 53) by lia.
    set (v := roundPos a) in *.
    assert (Hv53 : two53 <= v).
    { rewrite Hv, two53_pow. replace 53 with (52 + 1) by lia.
      rewrite Z.pow_add_r by lia.
      assert (2 ^ 1 <= 2 ^ e) by (apply Z.pow_le_mono_r; lia).
      apply Z.mul_le_mono_nonneg; lia. }
    destruct (roundPos_shape v Hv53) as (e' & q' & r' & m' & He' & Hq' & Hr' & Hsplit' & Hv' & Hm2 & Hd' & Hu' & _ & Hee').
    destruct (Z.eq_dec m (2 ^ 53)) as [Hm53|Hm53].
    + assert (Hve : v = 2 ^ (53 + e)) by (rewrite Z.pow_add_r by lia; lia).
      assert (Hlog : Z.log2 v = 53 + e) by (rewrite Hve; apply Z.log2_pow2; lia).
      assert (Ee : e' = e + 1) by lia. clear Hee'. subst e'.
      assert (Hp2 : 2 ^ (e + 1) = 2 * 2 ^ e) by (rewrite Z.pow_add_r by lia; lia).
      rewrite Hp2 in *.
      assert (q' = 2 ^ 52 /\ r' = 0) as [-> ->].
      { assert (Hv2 : v = 2 ^ 52 * (2 * 2 ^ e))
          by (rewrite Hv, Hm53; change (2^53) with (2 ^ 52 * 2); lia).
        apply (Z.div_mod_unique (2 * 2 ^ e)); [left; lia | left; lia | lia]. }
      rewrite Hv'. destruct Hm2 as [->| ->]; [lia|].
      specialize (Hu' eq_refl). lia.
    + assert (Hlog : Z.log2 v = 52 + e).
      { apply Z.log2_unique; [lia|]. rewrite Hv.
        replace (Z.succ (52 + e)) with (53 + e) by lia.
        rewrite !Z.pow_add_r by lia. split.
        - apply Z.mul_le_mono_nonneg_r; lia.
        - apply Z.mul_lt_mono_pos_r; lia. }
      assert (Ee : e' = e) by lia. clear Hee'. subst e'.
      assert (q' = m /\ r' = 0) as [-> ->]
        by (apply (Z.div_mod_unique (2 ^ e)); [left; lia | left; lia | lia]).
      rewrite Hv'. destruct Hm2 as [->| ->]; [lia|].
      specialize (Hu' eq_refl). lia.
Qed.

Lemma roundPos_pos a : 0 < a -> 0 < roundPos a.
Proof.
  intros Ha. destruct (Z.lt_ge_cases a two53) as [H|H].
  - now rewrite roundPos_small.
  - pose proof (roundPos_big_ge a H) as [H1 _].
    pose proof (Z.pow_pos_nonneg 2 (Z.log2 a) ltac:(lia) (Z.log2_nonneg a)). lia.
Qed.

Lemma roundDouble_idem z : roundDouble (roundDouble z) = roundDouble z.
Proof.
  unfold roundDouble. destruct (Z.ltb_spec z 0) as [Hz|Hz].
  - pose proof (roundPos_pos (- z) ltac:(lia)) as Hp.
    destruct (Z.ltb_spec (- roundPos (- z)) 0) as [_|H]; [|lia].
    rewrite Z.opp_involutive, roundPos_idem by lia. reflexivity.
  - pose proof (roundPos_nonneg z Hz) as Hp.
    destruct (Z.ltb_spec (roundPos z) 0) as [H|_]; [lia|].
    now apply roundPos_idem.
Qed.

Lemma roundDouble_mono a b : a <= b -> roundDouble a <= roundDouble b.
Proof.
  intros Hab. unfold roundDouble.
  destruct (Z.ltb_spec a 0) as [Ha|Ha], (Z.ltb_spec b 0) as [Hb|Hb].
  - pose proof (roundPos_mono (- b) (- a) ltac:(lia) ltac:(lia)). lia.
  - pose proof (roundPos_pos (- a) ltac:(lia)).
    pose proof (roundPos_nonneg b Hb). lia.
  - lia.
  - now apply roundPos_mono.
Qed.

(** Up to 2^53 in magnitude every integer is a double. *)
Lemma roundDouble_exact z : - two53 <= z <= two53 -> roundDouble z = z.
Proof.
  intros [Hlo Hhi]. unfold roundDouble.
  destruct (Z.ltb_spec z 0) as [Hz|Hz].
  - destruct (Z.eq_dec z (- two53)) as [->|Hne]; [reflexivity|].
    rewrite roundPos_small by lia. lia.
  - destruct (Z.eq_dec z two53) as [->|Hne]; [reflexivity|].
    apply roundPos_small. lia.
Qed.

Lemma toZ_num z : toZ (num z) = roundDouble z.
Proof.
  unfold num. destruct (bool_dec (isDouble (roundDouble z)) true) as [ok|no];
    [reflexivity|].
  exfalso. apply no. unfold isDouble. rewrite roundDouble_idem.
  apply Z.eqb_refl.
Qed.

Lemma toZ_round (n : number) : roundDouble n = n.
Proof. apply Z.eqb_eq. exact (toZ_ok n). Qed.

Lemma toZ_jsAdd (a b : number) : toZ (jsAdd a b) = roundDouble (a + b).
Proof. apply toZ_num. Qed.

(** The sum of two numbers is exact when it is at most 2^53 in
    magnitude. *)
Lemma jsAdd_exact (a b : number) :
  - two53 <= a + b <= two53 -> toZ (jsAdd a b) = a + b.
Proof. intros H. rewrite toZ_jsAdd. now apply roundDouble_exact. Qed.

Lemma jsAdd_mono (a a' b b' : number) :
  a <= a' -> b <= b' -> jsAdd a b <= jsAdd a' b'.
Proof. intros Ha Hb. rewrite !toZ_jsAdd. apply roundDouble_mono. lia. Qed.

(** Adding a non-negative number never gives less. *)
Lemma jsAdd_ge (a b : number) : 0 <= b -> a <= jsAdd a b.
Proof.
  intros Hb. rewrite toZ_jsAdd. rewrite <- (toZ_round a) at 1.
  apply roundDouble_mono. lia.
Qed.

Lemma toZ_one : toZ (num 1) = 1.
Proof. reflexivity. Qed.

Lemma toZ_zero : toZ (num 0) = 0.
Proof. reflexivity. Qed.

(** On a safe integer [+ 1] is exact. *)
Lemma jsAdd_one_safe (n : number) : safe n -> toZ (jsAdd n (num 1)) = n + 1.
Proof.
  unfold safe. intros H. apply jsAdd_exact. rewrite toZ_one. lia.
Qed.

Lemma jsAdd_one_ge (n : number) : n <= jsAdd n (num 1).
Proof. apply jsAdd_ge. rewrite toZ_one. lia. Qed.

End Rounding.

Set Implicit Arguments.

(* ------------------------------------------------------------------ *)
(** ** The download mutation *)

Lemma R_download_resources id0 title0 s :
  R.resources (R.handleDownload id0 title0 s)
  = map (bumpResource id0) (R.resources s).
Proof. reflexivity. Qed.

Lemma E_download_experiences expId fileId s :
  E.experiences (E.handleDownload expId fileId s)
  = map (bumpExperience expId fileId) (E.experiences s).
Proof. reflexivity. Qed.

Lemma with_files_same (e : E.Experience) : E.with_files e (E.files e) = e.
Proof. now destruct e. Qed.

Lemma map_id_on {A} (f : A -> A) (l : list A) :
  (forall x, In x l -> f x = x) -> map f l = l.
Proof.
  induction l as [|a l IH]; simpl; intros H; [reflexivity|].
  rewrite H by now left. f_equal. apply IH. intros x Hx. apply H. now right.
Qed.

(** C1, as the code has it.  One call of the download mutation adds
    exactly 1 to the counter of every entry that the given identifiers
    match, provided that counter is a safe integer (below 2^53 in
    magnitude), and leaves the counter of every other resource, experience
    file and position as it was; no entry is added or removed.  First
    application: the resource whose id is the given one.  Second
    application: the file with the given file id inside the experience
    with the given experience id. *)
Theorem download_increments_matching_counter :
  (forall (s : R.App) (id0 title0 : jsstring),
      let s' := R.handleDownload id0 title0 s in
      List.length (R.resources s') = List.length (R.resources s) /\
      forall i r, nth_error (R.resources s) i = Some r ->
        exists r', nth_error (R.resources s') i = Some r' /\
          (R.id r = id0 -> safe (R.downloadCount r) ->
             toZ (R.downloadCount r') = R.downloadCount r + 1) /\
          (R.id r <> id0 -> R.downloadCount r' = R.downloadCount r))%Z
  /\
  (forall (s : E.App) (expId : Z) (fileId : jsstring),
      let s' := E.handleDownload expId fileId s in
      List.length (E.experiences s') = List.length (E.experiences s) /\
      forall i e, nth_error (E.experiences s) i = Some e ->
        exists e', nth_error (E.experiences s') i = Some e' /\
          List.length (E.files e') = List.length (E.files e) /\
          forall j f, nth_error (E.files e) j = Some f ->
            exists f', nth_error (E.files e') j = Some f' /\
              (E.id e = expId /\ E.file_id f = fileId -> safe (E.count f) ->
                 toZ (E.count f') = E.count f + 1) /\
              (~ (E.id e = expId /\ E.file_id f = fileId) ->
                 E.count f' = E.count f))%Z.
Proof.
  split.
  - intros s id0 title0 s'. subst s'. rewrite R_download_resources.
    split; [apply length_map|].
    intros i r Hi. exists (bumpResource id0 r).
    rewrite nth_error_map, Hi. split; [reflexivity|].
    unfold bumpResource.
    destruct (str_eqb (R.id r) id0) eqn:Eq.
    + split; [intros _ Hs; now apply jsAdd_one_safe|].
      apply str_eqb_eq in Eq. congruence.
    + apply str_eqb_neq in Eq. split; [congruence | reflexivity].
  - intros s expId fileId s'. subst s'. rewrite E_download_experiences.
    split; [apply length_map|].
    intros i e Hi. exists (bumpExperience expId fileId e).
    rewrite nth_error_map, Hi. split; [reflexivity|].
    unfold bumpExperience.
    destruct (Z.eqb_spec (E.id e) expId) as [Heq|Hne]; simpl.
    + split; [apply length_map|].
      intros j f Hj. exists (bumpFile fileId f).
      rewrite nth_error_map, Hj. split; [reflexivity|].
      unfold bumpFile.
      destruct (str_eqb (E.file_id f) fileId) eqn:Eq.
      * split; [intros _ Hs; now apply jsAdd_one_safe|].
        apply str_eqb_eq in Eq. tauto.
      * apply str_eqb_neq in Eq. split; [tauto | reflexivity].
    + split; [reflexivity|].
      intros j f Hj. exists f. split; [exact Hj|]. split; [tauto|reflexivity].
Qed.

Lemma download_increments_matching_counter_witness :
  (exists r', nth_error (R.resources
                 (R.handleDownload (lit "2") (lit "Podcast") R.initial)) 1
              = Some r' /\ toZ (R.downloadCount r') = 99%Z)
  /\
  (exists e' f', nth_error (E.experiences
                   (E.handleDownload 1 (lit "e1-f1") E.initial)) 0 = Some e'
              /\ nth_error (E.files e') 0 = Some f' /\ toZ (E.count f') = 1%Z).
Proof.
  split.
  - destruct (proj1 download_increments_matching_counter
                R.initial (lit "2") (lit "Podcast")) as [_ H].
    destruct (H 1%nat _ eq_refl) as (r' & H1 & H2 & _).
    exists r'. split; [exact H1|]. apply (H2 eq_refl). split; reflexivity.
  - destruct (proj2 download_increments_matching_counter
                E.initial 1%Z (lit "e1-f1")) as [_ H].
    destruct (H 0%nat _ eq_refl) as (e' & H1 & _ & H2).
    destruct (H2 0%nat _ eq_refl) as (f' & H3 & H4 & _).
    exists e', f'. split; [exact H1|]. split; [exact H3|].
    apply (H4 (conj eq_refl eq_refl)). split; reflexivity.
Defined.

(** C1 as stated fails: a matching counter that holds 2^53 holds 2^53
    after the download, in both applications, because the sum 2^53 + 1 is
    not a double and is rounded back to 2^53. *)
Lemma download_at_two53_adds_nothing :
  map (fun r => toZ (R.downloadCount r))
      (R.resources (R.handleDownload (lit "4") (lit "Guia") saturatedCatalogR))
  = [9007199254740992%Z]
  /\ map (fun r => toZ (R.downloadCount r)) (R.resources saturatedCatalogR)
     = [9007199254740992%Z]
  /\ map (fun e => map (fun f => toZ (E.count f)) (E.files e))
         (E.experiences (E.handleDownload 4 (lit "e4-f1") saturatedCatalogE))
     = [[9007199254740992%Z]]
  /\ map (fun e => map (fun f => toZ (E.count f)) (E.files e))
         (E.experiences saturatedCatalogE)
     = [[9007199254740992%Z]].
Proof. repeat split; vm_compute; reflexivity. Qed.

Lemma unique_position {A K} (key : A -> K) (l : list A) i j a b :
  NoDup (map key l) ->
  nth_error l i = Some a -> nth_error l j = Some b -> key a = key b -> i = j.
Proof.
  intros Hnd Hi Hj Hk.
  apply (proj1 (NoDup_nth_error (map key l)) Hnd).
  - rewrite length_map. apply nth_error_Some. congruence.
  - rewrite !nth_error_map, Hi, Hj. simpl. now rewrite Hk.
Qed.

(** With the ids of the data model, which are unique, the download
    mutation of the first application touches one position of the catalog
    only: every other resource is the one it was. *)
Lemma R_download_touches_one_resource (s : R.App) id0 title0 i r :
  NoDup (map R.id (R.resources s)) ->
  nth_error (R.resources s) i = Some r -> R.id r = id0 ->
  forall j, j <> i ->
    nth_error (R.resources (R.handleDownload id0 title0 s)) j
    = nth_error (R.resources s) j.
Proof.
  intros Hnd Hi Hid j Hj. rewrite R_download_resources, nth_error_map.
  destruct (nth_error (R.resources s) j) as [rj|] eqn:Ej; [|reflexivity].
  simpl. f_equal. unfold bumpResource.
  destruct (str_eqb (R.id rj) id0) eqn:Eq; [|reflexivity].
  apply str_eqb_eq in Eq. exfalso. apply Hj.
  apply (unique_position R.id (R.resources s) j i Hnd Ej Hi). congruence.
Qed.

(** The same in the second application: with unique experience ids and
    unique file ids inside the experience, every other experience is the
    one it was, and inside the experience every other file is. *)
Lemma E_download_touches_one_file (s : E.App) expId fileId i e j f :
  NoDup (map E.id (E.experiences s)) ->
  NoDup (map E.file_id (E.files e)) ->
  nth_error (E.experiences s) i = Some e -> E.id e = expId ->
  nth_error (E.files e) j = Some f -> E.file_id f = fileId ->
  let s' := E.handleDownload expId fileId s in
  (forall i', i' <> i ->
     nth_error (E.experiences s') i' = nth_error (E.experiences s) i') /\
  (exists e', nth_error (E.experiences s') i = Some e' /\
     forall j', j' <> j -> nth_error (E.files e') j' = nth_error (E.files e) j').
Proof.
  intros Hnd Hndf Hi Hid Hj Hfid s'. subst s'.
  rewrite E_download_experiences. split.
  - intros i' Hi'. rewrite nth_error_map.
    destruct (nth_error (E.experiences s) i') as [e1|] eqn:E1; [|reflexivity].
    simpl. f_equal. unfold bumpExperience.
    destruct (Z.eqb_spec (E.id e1) expId) as [Heq|Hne]; [|reflexivity].
    exfalso. apply Hi'.
    apply (unique_position E.id (E.experiences s) i' i Hnd E1 Hi). congruence.
  - exists (bumpExperience expId fileId e). rewrite nth_error_map, Hi.
    split; [reflexivity|]. intros j' Hj'. unfold bumpExperience.
    rewrite (proj2 (Z.eqb_eq _ _) Hid). simpl. rewrite nth_error_map.
    destruct (nth_error (E.files e) j') as [f1|] eqn:F1; [|reflexivity].
    simpl. f_equal. unfold bumpFile.
    destruct (str_eqb (E.file_id f1) fileId) eqn:Eq; [|reflexivity].
    apply str_eqb_eq in Eq. exfalso. apply Hj'.
    apply (unique_position E.file_id (E.files e) j' j Hndf F1 Hj). congruence.
Qed.

(** C5. When the given identifiers reference nothing (no resource with that
    id; no experience with that id, or no file with that file id in it),
    the download mutation, a total function, returns the catalog as it
    was.  In the second application the whole component state is as it
    was; in the first the rest of the state is too, and the handler still
    shows its alert. *)
Theorem download_unknown_id_is_noop :
  (forall (s : R.App) (id0 title0 : jsstring),
      (forall r, In r (R.resources s) -> R.id r <> id0) ->
      let s' := R.handleDownload id0 title0 s in
      R.resources s' = R.resources s /\
      R.showStats s' = R.showStats s /\
      R.aiAnalysis s' = R.aiAnalysis s /\
      R.isAnalyzing s' = R.isAnalyzing s)
  /\
  (forall (s : E.App) (expId : Z) (fileId : jsstring),
      (forall e, In e (E.experiences s) -> E.id e = expId ->
         forall f, In f (E.files e) -> E.file_id f <> fileId) ->
      E.handleDownload expId fileId s = s).
Proof.
  split.
  - intros s id0 title0 H s'. subst s'. rewrite R_download_resources.
    repeat split. apply map_id_on. intros r Hr. unfold bumpResource.
    destruct (str_eqb (R.id r) id0) eqn:Eq; [|reflexivity].
    apply str_eqb_eq in Eq. now apply H in Hr.
  - intros s expId fileId H.
    assert (Hm : map (bumpExperience expId fileId) (E.experiences s)
                 = E.experiences s).
    { apply map_id_on. intros e He. unfold bumpExperience.
      destruct (Z.eqb_spec (E.id e) expId) as [Heq|Hne]; simpl; [|reflexivity].
      rewrite map_id_on; [apply with_files_same|].
      intros f Hf. unfold bumpFile.
      destruct (str_eqb (E.file_id f) fileId) eqn:Eq; [|reflexivity].
      apply str_eqb_eq in Eq. now apply (H e He Heq) in Hf. }
    unfold E.handleDownload, E.setExperiences.
    change (map _ (E.experiences s))
      with (map (bumpExperience expId fileId) (E.experiences s)).
    rewrite Hm. now destruct s.
Qed.

Lemma download_unknown_id_is_noop_witness :
  R.resources (R.handleDownload (lit "99") (lit "Nada") R.initial)
    = R.resources R.initial
  /\ E.handleDownload 7 (lit "e1-f1") E.initial = E.initial
  /\ E.handleDownload 1 (lit "e2-f1") E.initial = E.initial.
Proof.
  split; [|split].
  - apply (proj1 download_unknown_id_is_noop R.initial (lit "99") (lit "Nada")).
    intros r Hr. simpl in Hr.
    destruct Hr as [<-|[<-|[<-|[]]]]; vm_compute; discriminate.
  - apply (proj2 download_unknown_id_is_noop E.initial 7%Z (lit "e1-f1")).
    intros e He Hid. simpl in He.
    destruct He as [<-|[<-|[<-|[]]]]; vm_compute in Hid; discriminate.
  - apply (proj2 download_unknown_id_is_noop E.initial 1%Z (lit "e2-f1")).
    intros e He Hid. simpl in He.
    destruct He as [<-|[<-|[<-|[]]]]; vm_compute in Hid; try discriminate.
    intros f Hf. simpl in Hf.
    destruct Hf as [<-|[<-|[<-|[]]]]; vm_compute; discriminate.
Defined.

(** C10. The download mutation changes no field but counters: ids, titles,
    descriptions, types, urls and comment lists of the first application,
    and ids, titles, audio references, file ids, labels, file names and the
    global comment list of the second, are as before.  The add-comment
    mutation changes no field but comment lists: ids, titles,
    descriptions, types, urls and download counters of the first
    application, and the whole list of experiences of the second, are as
    before. *)
Theorem mutations_frame :
  (forall (s : R.App) (id0 title0 : jsstring),
      map (fun r => (R.id r, R.title r, R.description r, R.type r, R.url r,
                     R.comments r))
          (R.resources (R.handleDownload id0 title0 s))
      = map (fun r => (R.id r, R.title r, R.description r, R.type r, R.url r,
                       R.comments r))
            (R.resources s))
  /\
  (forall (s : E.App) (expId : Z) (fileId : jsstring),
      let s' := E.handleDownload expId fileId s in
      map (fun e => (E.id e, E.title e, E.audioSrc e,
                     map (fun f => (E.file_id f, E.label f, E.filename f))
                         (E.files e)))
          (E.experiences s')
      = map (fun e => (E.id e, E.title e, E.audioSrc e,
                       map (fun f => (E.file_id f, E.label f, E.filename f))
                           (E.files e)))
            (E.experiences s)
      /\ E.comments s' = E.comments s)
  /\
  (forall (clk : R.Clock) (s : R.App) (id0 text0 author0 : jsstring),
      map (fun r => (R.id r, R.title r, R.description r, R.type r, R.url r,
                     R.downloadCount r))
          (R.resources (R.handleAddComment clk id0 text0 author0 s))
      = map (fun r => (R.id r, R.title r, R.description r, R.type r, R.url r,
                       R.downloadCount r))
            (R.resources s))
  /\
  (forall (clk : E.Clock) (s : E.App) (name0 email0 text0 : jsstring),
      E.experiences (E.handleAddComment clk name0 email0 text0 s)
      = E.experiences s).
Proof.
  repeat split.
  - intros s id0 title0. rewrite R_download_resources, map_map.
    apply map_ext. intros r. unfold bumpResource.
    now destruct (str_eqb (R.id r) id0).
  - rewrite E_download_experiences, map_map.
    apply map_ext. intros e. unfold bumpExperience.
    destruct (negb (E.id e =? expId)%Z); [reflexivity|].
    simpl. rewrite map_map. f_equal.
    apply map_ext. intros f. unfold bumpFile.
    now destruct (str_eqb (E.file_id f) fileId).
  - intros clk s id0 text0 author0. simpl. rewrite map_map.
    apply map_ext. intros r. now destruct (str_eqb (R.id r) id0).
Qed.

(* ------------------------------------------------------------------ *)
(** ** The add-comment mutation and the two submit handlers *)

Lemma R_addComment_resources clk id0 text0 author0 s :
  R.resources (R.handleAddComment clk id0 text0 author0 s)
  = map (consComment id0 (R.newCommentOf clk text0 author0)) (R.resources s).
Proof. reflexivity. Qed.

Lemma R_submit_accepts clk resource c s :
  blank (R.newComment c) = false ->
  R.handleSubmitComment clk resource (c, s)
  = (R.setNewComment [] c,
     R.handleAddComment clk (R.id resource) (R.newComment c) (R.authorName c) s).
Proof.
  intros B. unfold R.handleSubmitComment. now rewrite trim_truthy, B.
Qed.

Lemma E_submit_accepts clk f s :
  blank (E.name f) = false -> blank (E.formText f) = false ->
  E.handleSubmit clk (f, s)
  = (E.emptyForm,
     E.handleAddComment clk (E.name f) (E.formEmail f) (E.formText f) s).
Proof.
  intros B1 B2. unfold E.handleSubmit. now rewrite !trim_truthy, B1, B2.
Qed.

(** C2. A submission whose text is not blank (and, in the second
    application, whose name is not blank either) produces a comment list
    that is the newly constructed comment followed by the previous list:
    one longer, the new comment at the head, every earlier comment
    unchanged and in its place.  In the first application this is the list
    of the resource the card shows; the other resources are unchanged. *)
Theorem add_comment_prepends :
  (forall (clk : R.Clock) (resource : R.Resource) (c : R.Card) (s : R.App),
      blank (R.newComment c) = false ->
      let s' := snd (R.handleSubmitComment clk resource (c, s)) in
      let nc := R.newCommentOf clk (R.newComment c) (R.authorName c) in
      List.length (R.resources s') = List.length (R.resources s) /\
      forall i r, nth_error (R.resources s) i = Some r ->
        exists r', nth_error (R.resources s') i = Some r' /\
          (R.id r = R.id resource ->
             R.comments r' = nc :: R.comments r /\
             List.length (R.comments r') = S (List.length (R.comments r))) /\
          (R.id r <> R.id resource -> r' = r))
  /\
  (forall (clk : E.Clock) (f : E.Form) (s : E.App),
      blank (E.name f) = false -> blank (E.formText f) = false ->
      let s' := snd (E.handleSubmit clk (f, s)) in
      let nc := E.newCommentOf clk (E.name f) (E.formEmail f) (E.formText f) in
      E.comments s' = nc :: E.comments s /\
      List.length (E.comments s') = S (List.length (E.comments s))).
Proof.
  split.
  - intros clk resource c s B s' nc. subst s' nc.
    rewrite R_submit_accepts by exact B. cbn [snd].
    rewrite R_addComment_resources. split; [apply length_map|].
    intros i r Hi. eexists. rewrite nth_error_map, Hi.
    split; [reflexivity|]. unfold consComment.
    destruct (str_eqb (R.id r) (R.id resource)) eqn:Eq.
    + apply str_eqb_eq in Eq. split; [now split | congruence].
    + apply str_eqb_neq in Eq. split; [congruence | reflexivity].
  - intros clk f s B1 B2 s' nc. subst s' nc.
    rewrite E_submit_accepts by assumption. now split.
Qed.

Lemma add_comment_prepends_witness :
  (exists r', nth_error (R.resources
                 (snd (R.handleSubmitComment clockR manual (cardAna, R.initial)))) 2
              = Some r'
      /\ List.length (R.comments r') = 1%nat)
  /\
  List.length (E.comments (snd (E.handleSubmit clockE (formAna, E.initial))))
  = 1%nat.
Proof.
  split.
  - destruct (proj1 add_comment_prepends clockR manual cardAna R.initial
                eq_refl) as [_ H].
    destruct (H 2%nat _ eq_refl) as (r' & H1 & H2 & _).
    exists r'. split; [exact H1 | exact (proj2 (H2 eq_refl))].
  - exact (proj2 (proj2 add_comment_prepends clockE formAna E.initial
                    eq_refl eq_refl)).
Defined.

(** C4. A submission whose text is empty or white space only is rejected:
    the handler returns at once, and the comment lists, the rest of the
    component state and the form are as they were. *)
Theorem blank_comment_rejected :
  (forall (clk : R.Clock) (resource : R.Resource) (c : R.Card) (s : R.App),
      blank (R.newComment c) = true ->
      R.handleSubmitComment clk resource (c, s) = (c, s))
  /\
  (forall (clk : E.Clock) (f : E.Form) (s : E.App),
      blank (E.formText f) = true ->
      E.handleSubmit clk (f, s) = (f, s)).
Proof.
  split.
  - intros clk resource c s B. unfold R.handleSubmitComment.
    now rewrite trim_truthy, B.
  - intros clk f s B. unfold E.handleSubmit.
    rewrite !trim_truthy, B. simpl. now rewrite orb_true_r.
Qed.

Lemma blank_comment_rejected_witness :
  R.handleSubmitComment clockR manual (cardBlank, R.initial)
    = (cardBlank, R.initial)
  /\
  E.handleSubmit clockE (formBlankText, E.initial) = (formBlankText, E.initial).
Proof.
  split.
  - exact (proj1 blank_comment_rejected clockR manual cardBlank R.initial
             eq_refl).
  - exact (proj2 blank_comment_rejected clockE formBlankText E.initial
             eq_refl).
Defined.

(** C9. First application (the name is optional): when the name is the
    empty string, the comment that an accepted submission puts at the head
    of the resource's list has the author [Usuario].  Second application
    (the name is required): a submission with an empty or blank name is
    rejected and adds no comment. *)
Theorem blank_author_name :
  (forall (clk : R.Clock) (resource : R.Resource) (c : R.Card) (s : R.App),
      blank (R.newComment c) = false ->
      R.authorName c = [] ->
      let s' := snd (R.handleSubmitComment clk resource (c, s)) in
      forall i r, nth_error (R.resources s) i = Some r ->
        R.id r = R.id resource ->
        exists r' nc, nth_error (R.resources s') i = Some r' /\
          R.comments r' = nc :: R.comments r /\
          R.author nc = lit "Usuario" /\ R.text nc = R.newComment c)
  /\
  (forall (clk : E.Clock) (f : E.Form) (s : E.App),
      blank (E.name f) = true ->
      E.handleSubmit clk (f, s) = (f, s)).
Proof.
  split.
  - intros clk resource c s B Ha s' i r Hi Hid. subst s'.
    rewrite R_submit_accepts by exact B. cbn [snd].
    rewrite R_addComment_resources.
    exists (consComment (R.id resource)
              (R.newCommentOf clk (R.newComment c) (R.authorName c)) r),
           (R.newCommentOf clk (R.newComment c) (R.authorName c)).
    rewrite nth_error_map, Hi. split; [reflexivity|].
    unfold consComment. rewrite (proj2 (str_eqb_eq _ _) Hid).
    rewrite Ha. repeat split.
  - intros clk f s B. unfold E.handleSubmit.
    now rewrite !trim_truthy, B.
Qed.

Lemma blank_author_name_witness :
  (exists r' nc,
      nth_error (R.resources
        (snd (R.handleSubmitComment clockR manual (cardAnonymous, R.initial)))) 2
      = Some r'
      /\ R.comments r' = [nc] /\ R.author nc = lit "Usuario")
  /\
  E.handleSubmit clockE (formNoName, E.initial) = (formNoName, E.initial).
Proof.
  split.
  - destruct (proj1 blank_author_name clockR manual cardAnonymous R.initial
                eq_refl eq_refl 2%nat _ eq_refl eq_refl)
      as (r' & nc & H1 & H2 & H3 & _).
    exists r', nc. repeat split; assumption.
  - exact (proj2 blank_author_name clockE formNoName E.initial eq_refl).
Defined.

(* ------------------------------------------------------------------ *)
(** ** The insight request *)

(** C6. Whatever the error, when the text-generation call fails the
    handler ends with the fixed fallback message as the displayed result
    and with the in-progress flag false.  It sends at most the one
    request (no retry), and the displayed state does not depend on the
    error: the catalog and the panel flag are as before, the result is the
    fallback.  The same holds of the part of the handler that runs after
    the call, in whatever state the component then is. *)
Theorem insight_failure_fallback :
  (forall (svc : R.Service) (s : R.App) (e : Error),
      R_fails svc s e ->
      let s' := R.analyzeWithGemini svc s in
      R.aiAnalysis s' = Some R.fallback /\
      R.isAnalyzing s' = false /\
      R_display s' = (R.resources s, R.showStats s, Some R.fallback, false) /\
      (R.requests s' = R.requests s \/
       exists q, R.requests s' = R.requests s ++ [q]))
  /\
  (forall (e : Error) (s : R.App),
      R_display (R.analyzeSettle (inl e) s)
      = (R.resources s, R.showStats s, Some R.fallback, false))
  /\
  (forall (svc : E.Service) (s : E.App) (e : Error),
      E_fails svc s e ->
      let s' := E.analyzeWithGemini svc s in
      E.aiAnalysis s' = Some E.fallback /\
      E.isAnalyzing s' = false /\
      E.experiences s' = E.experiences s /\
      E.comments s' = E.comments s /\
      E.showAdmin s' = E.showAdmin s /\
      (E.requests s' = E.requests s \/
       exists q, E.requests s' = E.requests s ++ [q]))
  /\
  (forall (e1 e2 : Error) (s : E.App),
      E.analyzeSettle (inl e1) s = E.analyzeSettle (inl e2) s /\
      E.aiAnalysis (E.analyzeSettle (inl e1) s) = Some E.fallback /\
      E.isAnalyzing (E.analyzeSettle (inl e1) s) = false).
Proof.
  split; [|split; [|split]].
  - intros svc s e [Hc | [Hc Hg]] s'; subst s';
      unfold R.analyzeWithGemini, R.analyzeStart; rewrite Hc.
    + repeat split. now left.
    + cbn [R.resources R.setAiAnalysis R.setIsAnalyzing]. rewrite Hg.
      repeat split. right. eexists. reflexivity.
  - reflexivity.
  - intros svc s e [Hc | [Hc Hg]] s'; subst s';
      unfold E.analyzeWithGemini, E.analyzeStart; rewrite Hc.
    + repeat split. now left.
    + rewrite Hg. repeat split. right. eexists. reflexivity.
  - intros e1 e2 s. repeat split.
Qed.

Lemma insight_failure_fallback_witness :
  R.aiAnalysis (R.analyzeWithGemini rejectingService R.initial)
    = Some R.fallback
  /\
  E.isAnalyzing (E.analyzeWithGemini unconfiguredService E.initial) = false.
Proof.
  split.
  - refine (proj1 (proj1 insight_failure_fallback
                     rejectingService R.initial networkError _)).
    right. split; reflexivity.
  - refine (proj1 (proj2 (proj1 (proj2 (proj2 insight_failure_fallback))
                     unconfiguredService E.initial quotaError _))).
    left. reflexivity.
Defined.

(* ------------------------------------------------------------------ *)
(** ** The report *)

(** C8. The report text is a function of the snapshot alone: two component
    states with the same catalog (and, in the second application, the same
    comments) give the same text, whatever the rest of the state: the open
    panels, the pending or displayed analysis, the alerts shown and the
    requests sent, and whenever it is built. *)
Theorem report_depends_on_snapshot_only :
  (forall s1 s2 : R.App,
      R.resources s1 = R.resources s2 ->
      R.exportStats s1 = R.exportStats s2)
  /\
  (forall s1 s2 : E.App,
      E.experiences s1 = E.experiences s2 ->
      E.comments s1 = E.comments s2 ->
      E.exportData s1 = E.exportData s2).
Proof.
  split.
  - intros s1 s2 H. unfold R.exportStats. now rewrite H.
  - intros s1 s2 H1 H2. unfold E.exportData. now rewrite H1, H2.
Qed.

Lemma report_depends_on_snapshot_only_witness :
  R.exportStats (R.setIsAnalyzing true (R.alert (lit "x") R.initial))
    = R.exportStats R.initial
  /\
  E.exportData (E.setAiAnalysis (Some (lit "Informe")) E.initial)
    = E.exportData E.initial.
Proof.
  split.
  - apply (proj1 report_depends_on_snapshot_only). reflexivity.
  - apply (proj2 report_depends_on_snapshot_only); reflexivity.
Defined.

(* ------------------------------------------------------------------ *)
(** ** Comment ids over a sequence of submissions *)

Lemma Fresh_tail t ts ids : Fresh (t :: ts) ids -> Fresh ts ids.
Proof. intros [H1 H2]. split; [exact H1|]. intros u Hu. apply H2. now right. Qed.

Lemma Fresh_stamp t ts ids :
  NoDup (t :: ts) -> Fresh (t :: ts) ids -> Fresh ts (toString t :: ids).
Proof.
  intros Hnd [H1 H2]. inversion Hnd as [|? ? Hnotin Hnd']; subst. split.
  - constructor; [apply H2; now left | exact H1].
  - intros u Hu [Heq | Hin].
    + apply toString_inj in Heq. subst u. contradiction.
    + apply (H2 u); [now right | exact Hin].
Qed.

Lemma E_addAll_ids (ops : list E_Add) : forall s : E.App,
  NoDup (map (fun op => E.now (ea_clock op)) ops) ->
  Fresh (map (fun op => E.now (ea_clock op)) ops)
        (map E.comment_id (E.comments s)) ->
  NoDup (map E.comment_id (E.comments (E_addAll ops s))).
Proof.
  induction ops as [|op ops IH]; intros s Hnd Hf; simpl in *.
  - apply Hf.
  - apply IH.
    + now inversion Hnd.
    + apply (Fresh_stamp Hnd Hf).
Qed.

Lemma R_addAll_ids (ops : list R_Add) : forall s : R.App,
  NoDup (map (fun op => R.now (ra_clock op)) ops) ->
  (forall r, In r (R.resources s) ->
     Fresh (map (fun op => R.now (ra_clock op)) ops)
           (map R.comment_id (R.comments r))) ->
  forall r', In r' (R.resources (R_addAll ops s)) ->
    NoDup (map R.comment_id (R.comments r')).
Proof.
  induction ops as [|op ops IH]; intros s Hnd Hf r' Hr'; simpl in *.
  - now apply Hf.
  - apply (IH _ (proj2 (proj1 (NoDup_cons_iff _ _) Hnd))) in Hr';
      [exact Hr'|].
    clear r' Hr'. intros r1 Hr1. simpl in Hr1.
    apply in_map_iff in Hr1. destruct Hr1 as (r & <- & Hr).
    specialize (Hf r Hr).
    destruct (str_eqb (R.id r) (ra_target op)); simpl.
    + apply (Fresh_stamp Hnd Hf).
    + apply (Fresh_tail Hf).
Qed.

(** C7, as the code has it.  The id of a new comment is the decimal numeral
    of the clock reading that the call takes.  Over a sequence of
    add-comment operations whose clock readings are pairwise distinct,
    started from comment lists whose ids are pairwise distinct and are not
    the numeral of one of these readings, the ids of every comment list
    stay pairwise distinct: each new id differs from all the ids present
    when it is inserted. *)
Theorem comment_ids_distinct_when_clock_readings_are :
  (forall (ops : list R_Add) (s : R.App),
      NoDup (map (fun op => R.now (ra_clock op)) ops) ->
      (forall r, In r (R.resources s) ->
         Fresh (map (fun op => R.now (ra_clock op)) ops)
               (map R.comment_id (R.comments r))) ->
      forall r', In r' (R.resources (R_addAll ops s)) ->
        NoDup (map R.comment_id (R.comments r')))
  /\
  (forall (ops : list E_Add) (s : E.App),
      NoDup (map (fun op => E.now (ea_clock op)) ops) ->
      Fresh (map (fun op => E.now (ea_clock op)) ops)
            (map E.comment_id (E.comments s)) ->
      NoDup (map E.comment_id (E.comments (E_addAll ops s))))
  /\
  (forall (clk : E.Clock) (name0 email0 text0 : jsstring),
      E.comment_id (E.newCommentOf clk name0 email0 text0) = toString (E.now clk))
  /\
  (forall (clk : R.Clock) (text0 author0 : jsstring),
      R.comment_id (R.newCommentOf clk text0 author0) = toString (R.now clk)).
Proof.
  split; [|split; [|split]].
  - exact R_addAll_ids.
  - exact E_addAll_ids.
  - reflexivity.
  - reflexivity.
Qed.

Lemma comment_ids_distinct_when_clock_readings_are_witness :
  (forall r', In r' (R.resources (R_addAll [addToGuide; addToGuideLater] R.initial)) ->
     NoDup (map R.comment_id (R.comments r')))
  /\
  NoDup (map E.comment_id
           (E.comments (E_addAll [addAna; addLuisLater] E.initial))).
Proof.
  split.
  - apply (proj1 comment_ids_distinct_when_clock_readings_are
             [addToGuide; addToGuideLater] R.initial).
    + repeat constructor; simpl; intuition discriminate.
    + intros r Hr. simpl in Hr.
      destruct Hr as [<-|[<-|[<-|[]]]]; split;
        try (repeat constructor; simpl; intuition discriminate);
        intros t Ht; simpl in Ht;
        destruct Ht as [<-|[<-|[]]]; vm_compute; intuition discriminate.
  - apply (proj1 (proj2 comment_ids_distinct_when_clock_readings_are)
             [addAna; addLuisLater] E.initial).
    + repeat constructor; simpl; intuition discriminate.
    + split; [constructor|]. intros t _ [].
Defined.

(** C7 as stated fails: two submissions that read the same clock value
    get the same id, so the id of the second comment is already the id of
    a comment of the list it is inserted in. *)
Lemma comment_ids_collide_on_equal_clock_readings :
  In (E.comment_id (E.newCommentOf clockE (lit "Luis") [] (lit "Gracias")))
     (map E.comment_id
        (E.comments (E.handleAddComment clockE (lit "Ana") [] (lit "Muy útil")
                       E.initial)))
  /\
  ~ NoDup (map E.comment_id
             (E.comments (E_addAll [addAna; addLuisSameInstant] E.initial))).
Proof.
  split.
  - left. reflexivity.
  - intros H. inversion H as [|x l Hn _]; subst. apply Hn. left. reflexivity.
Qed.

(* ------------------------------------------------------------------ *)
(** ** Quoting in the report *)




(** C3 on a title that contains double quotes.  The report writes the
    title between double quotes as it is, its own double quotes not
    doubled: in both applications the line is not a well-formed record, a
    strict reader rejects it and a lenient one returns another text than
    the title.  Only the text of a comment is doubled
    ([commentRow_reads_back]); the author of a comment is not either. *)
Theorem report_title_quotes_not_doubled :
  E.downloadRow quotedExperience quotedFile
    = [QUOTE] ++ lit "Guia " ++ [QUOTE] ++ lit "A" ++ [QUOTE] ++ [QUOTE]
      ++ [COMMA] ++ [QUOTE] ++ lit "exp4-guia.pdf" ++ [QUOTE] ++ [COMMA]
      ++ lit "0" ++ [LF]
  /\ E.exportData quotedCatalog
     = lit "data:text/csv;charset=utf-8,--- REPORTE DE DESCARGAS ---" ++ [LF]
       ++ lit "Experiencia,Archivo,Descargas" ++ [LF]
       ++ E.downloadRow quotedExperience quotedFile
       ++ [LF] ++ lit "--- REPORTE DE COMENTARIOS ---" ++ [LF]
       ++ lit "Fecha,Autor,Email,Comentario" ++ [LF]
  /\ Csv.readRecord true (E.downloadRow quotedExperience quotedFile) = None
  /\ Csv.readRecord false (E.downloadRow quotedExperience quotedFile)
     = Some ([lit "Guia A" ++ [QUOTE; QUOTE]; lit "exp4-guia.pdf"; lit "0"], [])
  /\ R.row quotedResource
     = lit "4," ++ [QUOTE] ++ lit "Guia " ++ [QUOTE] ++ lit "A" ++ [QUOTE]
       ++ [QUOTE] ++ lit ",pdf,12,0"
  /\ Csv.readRecord true (R.row quotedResource) = None
  /\ Csv.readRecord false (R.row quotedResource)
     = Some ([lit "4"; lit "Guia A" ++ [QUOTE; QUOTE]; lit "pdf"; lit "12"; lit "0"], [])
  /\ Csv.readRecord true (E.commentRow quotedAuthorComment) = None.
Proof. repeat split; vm_compute; reflexivity. Qed.

(* ------------------------------------------------------------------ *)
(** ** The figures of the statistics panels *)

Lemma sum_from {A} (g : A -> Z) (l : list A) (a : Z) :
  fold_left (fun acc x => (acc + g x)%Z) l a
  = (a + fold_left (fun acc x => (acc + g x)%Z) l 0%Z)%Z.
Proof.
  revert a. induction l as [|x l IH]; intros a; simpl; [lia|].
  rewrite IH, (IH (g x)). lia.
Qed.

Lemma R_totalInteractions_cons r rs :
  R.totalInteractions (r :: rs)
  = (Z.of_nat (List.length (R.comments r)) + R.totalInteractions rs)%Z.
Proof. unfold R.totalInteractions. simpl. now rewrite sum_from. Qed.

(** A [reduce] that adds numbers depends on the numbers only. *)
Lemma jsSum_ext {A} (g : A -> number) (l l' : list A) (a : number) :
  map g l = map g l' ->
  fold_left (fun acc x => jsAdd acc (g x)) l a
  = fold_left (fun acc x => jsAdd acc (g x)) l' a.
Proof.
  revert l' a. induction l as [|x l IH]; intros [|y l'] a H;
    try discriminate; [reflexivity|].
  simpl in H. injection H as Hx Hl. simpl. rewrite Hx. now apply IH.
Qed.

(** Larger numbers give a sum at least as large. *)
Lemma jsSum_mono {A} (g : A -> number) (l l' : list A) :
  Forall2 (fun x y => (g x <= g y)%Z) l l' ->
  forall a a' : number, (a <= a')%Z ->
  (fold_left (fun acc x => jsAdd acc (g x)) l a
   <= fold_left (fun acc x => jsAdd acc (g x)) l' a')%Z.
Proof.
  induction 1 as [|x y l l' Hxy _ IH]; intros a a' Ha; [exact Ha|].
  simpl. apply IH. now apply jsAdd_mono.
Qed.

Lemma zsum_nonneg {A} (g : A -> Z) (l : list A) :
  Forall (fun x => (0 <= g x)%Z) l ->
  (0 <= fold_right (fun x acc => g x + acc) 0 l)%Z.
Proof. induction 1; simpl; lia. Qed.

(** A [reduce] that adds non-negative numbers is exact as long as the sum
    is at most 2^53. *)
Lemma jsSum_exact {A} (g : A -> number) (l : list A) :
  Forall (fun x => (0 <= g x)%Z) l ->
  forall a : number, (0 <= a)%Z ->
  (a + fold_right (fun x acc => g x + acc) 0 l <= two53)%Z ->
  toZ (fold_left (fun acc x => jsAdd acc (g x)) l a)
  = (a + fold_right (fun x acc => g x + acc) 0 l)%Z.
Proof.
  induction 1 as [|x l Hx Hl IH]; intros a Ha Hb; simpl in *; [lia|].
  pose proof (zsum_nonneg (fun x => toZ (g x)) Hl) as Hs. simpl in Hs.
  assert (He : toZ (jsAdd a (g x)) = (a + g x)%Z).
  { apply jsAdd_exact. unfold two53 in *. lia. }
  rewrite IH; rewrite ?He; lia.
Qed.

Lemma R_total_exact rs :
  R_nonneg rs -> (R_sum rs <= two53)%Z -> toZ (R.totalDownloads rs) = R_sum rs.
Proof.
  intros Hn Hb. unfold R.totalDownloads.
  rewrite (jsSum_exact R.downloadCount Hn (num 0)); rewrite ?toZ_zero;
    [reflexivity | lia | exact Hb].
Qed.

Lemma R_sum_nonneg rs : R_nonneg rs -> (0 <= R_sum rs)%Z.
Proof. apply (zsum_nonneg (fun r => toZ (R.downloadCount r))). Qed.

Lemma R_nonneg_bumped id0 rs : R_nonneg rs -> R_nonneg (map (bumpResource id0) rs).
Proof.
  unfold R_nonneg. intros H. apply Forall_map.
  eapply Forall_impl; [|exact H]. intros r Hr. unfold bumpResource.
  destruct (str_eqb (R.id r) id0); [|exact Hr].
  cbn [R.downloadCount R.with_downloadCount].
  pose proof (jsAdd_one_ge (R.downloadCount r)). cbv beta in Hr. lia.
Qed.

Lemma filter_none {A} (p : A -> bool) (l : list A) :
  (forall x, In x l -> p x = false) -> filter p l = [].
Proof.
  induction l as [|x l IH]; intros H; simpl; [reflexivity|].
  rewrite (H x) by now left. apply IH. intros y Hy. apply H. now right.
Qed.

Lemma filter_map_swap {A B} (p : B -> bool) (g : A -> B) (l : list A) :
  filter p (map g l) = map g (filter (fun x => p (g x)) l).
Proof.
  induction l as [|x l IH]; simpl; [reflexivity|].
  destruct (p (g x)); simpl; now rewrite IH.
Qed.

(** Among entries with pairwise distinct keys, one entry has the key of a
    given entry of the list. *)
Lemma one_with_key {A K} (key : A -> K) (eqb : K -> K -> bool)
    (eqb_ok : forall a b, eqb a b = true <-> a = b) (l : list A) (a : A) :
  NoDup (map key l) -> In a l ->
  List.length (filter (fun x => eqb (key x) (key a)) l) = 1%nat.
Proof.
  induction l as [|x l IH]; intros Hnd Hin; [destruct Hin|].
  simpl in Hnd. apply NoDup_cons_iff in Hnd. destruct Hnd as [Hx Hnd].
  simpl. destruct Hin as [->|Hin].
  - rewrite (proj2 (eqb_ok _ _) eq_refl). simpl. f_equal.
    rewrite filter_none; [reflexivity|].
    intros y Hy. destruct (eqb (key y) (key a)) eqn:Ey; [|reflexivity].
    apply eqb_ok in Ey. exfalso. apply Hx. rewrite <- Ey. now apply in_map.
  - destruct (eqb (key x) (key a)) eqn:Ex.
    + apply eqb_ok in Ex. exfalso. apply Hx. rewrite Ex. now apply in_map.
    + now apply IH.
Qed.

Lemma R_sum_bumped id0 rs :
  R_nonneg rs -> (R_sum rs < two53)%Z ->
  R_sum (map (bumpResource id0) rs)
  = (R_sum rs + Z.of_nat (R_matches id0 rs))%Z.
Proof.
  unfold R_matches.
  induction 1 as [|r rs Hr Hrs IH]; intros Hb; [reflexivity|].
  pose proof (R_sum_nonneg Hrs) as Hs.
  cbn [map filter R_sum fold_right] in *. fold (R_sum rs) in *.
  fold (R_sum (map (bumpResource id0) rs)).
  rewrite IH by lia. unfold bumpResource.
  destruct (str_eqb (R.id r) id0);
    cbn [List.length R.downloadCount R.with_downloadCount]; [|lia].
  rewrite jsAdd_one_safe by (unfold safe, two53 in *; lia). lia.
Qed.

Lemma R_total_bumped id0 rs :
  R_nonneg rs -> (R_sum rs + Z.of_nat (R_matches id0 rs) < two53)%Z ->
  toZ (R.totalDownloads (map (bumpResource id0) rs))
  = (R.totalDownloads rs + Z.of_nat (R_matches id0 rs))%Z.
Proof.
  intros Hn Hb.
  rewrite (R_total_exact Hn) by lia.
  rewrite (R_total_exact (R_nonneg_bumped id0 Hn));
    rewrite R_sum_bumped; try assumption; lia.
Qed.

(** X1. After a download the total of the first panel is the total before
    plus the number of resources with the given id (nothing is added on a
    miss, one per resource hit), when the counters are non-negative and
    their sum stays below 2^53. *)
Theorem R_total_after_download (s : R.App) (id0 title0 : jsstring) :
  Forall (fun r => (0 <= R.downloadCount r)%Z) (R.resources s) ->
  (R_sum (R.resources s) + Z.of_nat (R_matches id0 (R.resources s)) < two53)%Z ->
  toZ (R.totalDownloads (R.resources (R.handleDownload id0 title0 s)))
  = (R.totalDownloads (R.resources s)
     + Z.of_nat (R_matches id0 (R.resources s)))%Z.
Proof. intros Hn Hb. rewrite R_download_resources. now apply R_total_bumped. Qed.

Lemma R_total_after_download_witness :
  toZ (R.totalDownloads (R.resources
         (R.handleDownload (lit "2") (lit "Podcast") R.initial))) = 465%Z.
Proof.
  apply (R_total_after_download R.initial (lit "2") (lit "Podcast")).
  - repeat constructor; vm_compute; discriminate.
  - vm_compute. reflexivity.
Defined.

Lemma E_filesSum_nonneg fs :
  Forall (fun f => (0 <= E.count f)%Z) fs -> (0 <= E_filesSum fs)%Z.
Proof. apply (zsum_nonneg (fun f => toZ (E.count f))). Qed.

Lemma E_sum_nonneg es : E_nonneg es -> (0 <= E_sum es)%Z.
Proof.
  induction 1 as [|e es He _ IH]; simpl; [lia|].
  pose proof (E_filesSum_nonneg He). lia.
Qed.

Lemma E_files_total_exact fs :
  Forall (fun f => (0 <= E.count f)%Z) fs -> (E_filesSum fs <= two53)%Z ->
  toZ (fold_left (fun a f => jsAdd a (E.count f)) fs (num 0)) = E_filesSum fs.
Proof.
  intros Hn Hb.
  rewrite (jsSum_exact E.count Hn (num 0)); rewrite ?toZ_zero;
    [reflexivity | lia | exact Hb].
Qed.

Lemma E_total_from es : E_nonneg es ->
  forall a : number, (0 <= a)%Z -> (a + E_sum es <= two53)%Z ->
  toZ (fold_left (fun acc exp =>
         jsAdd acc (fold_left (fun a f => jsAdd a (E.count f)) (E.files exp)
                              (num 0))) es a)
  = (a + E_sum es)%Z.
Proof.
  induction 1 as [|e es He Hes IH]; intros a Ha Hb; simpl in *; [lia|].
  pose proof (E_filesSum_nonneg He) as H1.
  pose proof (E_sum_nonneg Hes) as H2.
  assert (Hi : toZ (fold_left (fun a f => jsAdd a (E.count f)) (E.files e)
                              (num 0)) = E_filesSum (E.files e))
    by (apply E_files_total_exact; [exact He | lia]).
  assert (Hacc : toZ (jsAdd a (fold_left (fun a f => jsAdd a (E.count f))
                                          (E.files e) (num 0)))
                 = (a + E_filesSum (E.files e))%Z).
  { rewrite jsAdd_exact; rewrite Hi; unfold two53 in *; lia. }
  rewrite IH; rewrite ?Hacc; lia.
Qed.

Lemma E_total_exact es :
  E_nonneg es -> (E_sum es <= two53)%Z -> toZ (E.totalDownloads es) = E_sum es.
Proof.
  intros Hn Hb. unfold E.totalDownloads.
  rewrite (E_total_from Hn (num 0)); rewrite ?toZ_zero; lia.
Qed.

Lemma E_nonneg_bumped x a es :
  E_nonneg es -> E_nonneg (map (bumpExperience x a) es).
Proof.
  unfold E_nonneg. intros H. apply Forall_map.
  eapply Forall_impl; [|exact H]. intros e He. unfold bumpExperience.
  destruct (negb (E.id e =? x)%Z); [exact He|].
  cbn [E.files E.with_files]. apply Forall_map.
  eapply Forall_impl; [|exact He]. intros f Hf. unfold bumpFile.
  destruct (str_eqb (E.file_id f) a); [|exact Hf].
  cbn [E.count E.with_count].
  pose proof (jsAdd_one_ge (E.count f)). cbv beta in Hf. lia.
Qed.

Lemma E_filesSum_bumped a fs :
  Forall (fun f => (0 <= E.count f)%Z) fs -> (E_filesSum fs < two53)%Z ->
  E_filesSum (map (bumpFile a) fs)
  = (E_filesSum fs
     + Z.of_nat (List.length (filter (fun f => str_eqb (E.file_id f) a) fs)))%Z.
Proof.
  induction 1 as [|f fs Hf Hfs IH]; intros Hb; [reflexivity|].
  pose proof (E_filesSum_nonneg Hfs) as Hs.
  cbn [map filter E_filesSum fold_right] in *. fold (E_filesSum fs) in *.
  fold (E_filesSum (map (bumpFile a) fs)).
  rewrite IH by lia. unfold bumpFile.
  destruct (str_eqb (E.file_id f) a);
    cbn [List.length E.count E.with_count]; [|lia].
  rewrite jsAdd_one_safe by (unfold safe, two53 in *; lia). lia.
Qed.

Lemma E_matches_cons expId fileId e es :
  E_matches expId fileId (e :: es)
  = ((if Z.eqb (E.id e) expId
      then List.length (filter (fun f => str_eqb (E.file_id f) fileId) (E.files e))
      else 0) + E_matches expId fileId es)%nat.
Proof.
  unfold E_matches, E_pairs. cbn [flat_map].
  rewrite filter_app, length_app. f_equal.
  rewrite filter_map_swap, length_map. cbn [fst snd].
  destruct (Z.eqb (E.id e) expId); cbn [andb]; [reflexivity|].
  now rewrite filter_none.
Qed.

Lemma E_sum_bumped x a es :
  E_nonneg es -> (E_sum es < two53)%Z ->
  E_sum (map (bumpExperience x a) es)
  = (E_sum es + Z.of_nat (E_matches x a es))%Z.
Proof.
  induction 1 as [|e es He Hes IH]; intros Hb; [reflexivity|].
  pose proof (E_filesSum_nonneg He) as H1.
  pose proof (E_sum_nonneg Hes) as H2.
  cbn [map E_sum fold_right] in *. fold (E_sum es) in *.
  fold (E_sum (map (bumpExperience x a) es)).
  rewrite IH, E_matches_cons by lia. unfold bumpExperience.
  destruct (Z.eqb (E.id e) x); cbn [negb E.files E.with_files]; [|lia].
  rewrite E_filesSum_bumped by (try assumption; lia). lia.
Qed.

Lemma E_total_bumped x a es :
  E_nonneg es -> (E_sum es + Z.of_nat (E_matches x a es) < two53)%Z ->
  toZ (E.totalDownloads (map (bumpExperience x a) es))
  = (E.totalDownloads es + Z.of_nat (E_matches x a es))%Z.
Proof.
  intros Hn Hb.
  rewrite (E_total_exact Hn) by lia.
  rewrite (E_total_exact (E_nonneg_bumped x a Hn));
    rewrite E_sum_bumped; try assumption; lia.
Qed.

(** X2. After a download the total of the second panel is the total before
    plus the number of files that have the given file id in an experience
    that has the given experience id, when the counters are non-negative
    and their sum stays below 2^53. *)
Theorem E_total_after_download (s : E.App) (expId : Z) (fileId : jsstring) :
  Forall (fun e => Forall (fun f => (0 <= E.count f)%Z) (E.files e))
         (E.experiences s) ->
  (E_sum (E.experiences s)
   + Z.of_nat (E_matches expId fileId (E.experiences s)) < two53)%Z ->
  toZ (E.totalDownloads (E.experiences (E.handleDownload expId fileId s)))
  = (E.totalDownloads (E.experiences s)
     + Z.of_nat (E_matches expId fileId (E.experiences s)))%Z.
Proof.
  intros Hn Hb. rewrite E_download_experiences. now apply E_total_bumped.
Qed.

Lemma E_total_after_download_witness :
  toZ (E.totalDownloads (E.experiences
         (E.handleDownload 4 (lit "e4-f1") quotedCatalog))) = 1%Z.
Proof.
  apply (E_total_after_download quotedCatalog 4%Z (lit "e4-f1")).
  - repeat constructor; vm_compute; discriminate.
  - vm_compute. reflexivity.
Defined.

Lemma E_matches_absent expId fileId es :
  (forall e, In e es -> E.id e <> expId) -> E_matches expId fileId es = 0%nat.
Proof.
  induction es as [|e es IH]; intros H; [reflexivity|].
  rewrite E_matches_cons, IH by (intros x Hx; apply H; now right).
  destruct (Z.eqb_spec (E.id e) expId) as [Heq|]; [|reflexivity].
  exfalso. apply (H e); [now left | exact Heq].
Qed.

Lemma E_matches_one es e f :
  NoDup (map E.id es) -> In e es ->
  NoDup (map E.file_id (E.files e)) -> In f (E.files e) ->
  E_matches (E.id e) (E.file_id f) es = 1%nat.
Proof.
  intros Hnd He Hndf Hf.
  induction es as [|x es IH]; [destruct He|].
  simpl in Hnd. apply NoDup_cons_iff in Hnd. destruct Hnd as [Hx Hnd].
  rewrite E_matches_cons. destruct He as [->|He].
  - rewrite Z.eqb_refl, E_matches_absent.
    + rewrite (one_with_key E.file_id str_eqb str_eqb_eq _ f Hndf Hf).
      reflexivity.
    + intros y Hy Heq. apply Hx. rewrite <- Heq. now apply in_map.
  - destruct (Z.eqb_spec (E.id x) (E.id e)) as [Heq|_].
    + exfalso. apply Hx. rewrite Heq. now apply in_map.
    + now rewrite IH.
Qed.

(** X3. A click on a download link, which is rendered for a file of an
    experience of the list, is never a miss: with the unique ids of the
    data model, and counters that are non-negative with a sum that stays
    below 2^53, it adds exactly 1 to the total, and the alert that follows
    names the file. *)
Theorem E_click_counts_once (s : E.App) (exp : E.Experience)
    (file : E.DownloadableFile) :
  In exp (E.experiences s) -> In file (E.files exp) ->
  NoDup (map E.id (E.experiences s)) ->
  NoDup (map E.file_id (E.files exp)) ->
  Forall (fun e => Forall (fun f => (0 <= E.count f)%Z) (E.files e))
         (E.experiences s) ->
  (E_sum (E.experiences s) + 1 < two53)%Z ->
  let s' := E.clickDownload exp file s in
  toZ (E.totalDownloads (E.experiences s'))
  = (E.totalDownloads (E.experiences s) + 1)%Z
  /\ E.alerts s' = E.alerts s ++ [lit "Simulando descarga de: " ++ E.filename file]
  /\ E.comments s' = E.comments s.
Proof.
  intros He Hf Hnd Hndf Hn Hb s'. subst s'. unfold E.clickDownload.
  split; [|split; reflexivity].
  change (toZ (E.totalDownloads (map (bumpExperience (E.id exp) (E.file_id file))
                                     (E.experiences s)))
          = (E.totalDownloads (E.experiences s) + 1)%Z).
  pose proof (E_matches_one _ _ _ Hnd He Hndf Hf) as Hm.
  rewrite E_total_bumped; rewrite ?Hm; [reflexivity | exact Hn | exact Hb].
Qed.

Lemma E_click_counts_once_witness :
  toZ (E.totalDownloads (E.experiences
         (E.clickDownload quotedExperience quotedFile quotedCatalog))) = 1%Z.
Proof.
  refine (proj1 (E_click_counts_once quotedCatalog quotedExperience quotedFile
                   _ _ _ _ _ _)).
  - left. reflexivity.
  - left. reflexivity.
  - repeat constructor. intros [].
  - repeat constructor. intros [].
  - repeat constructor; vm_compute; discriminate.
  - vm_compute. reflexivity.
Defined.

(** X4. The button of a card passes the id and the title of its resource,
    which is one of the list: with the unique ids of the data model, and
    counters that are non-negative with a sum that stays below 2^53, the
    download adds exactly 1 to the total of the panel, and the alert names
    the resource. *)
Theorem R_card_download_counts_once (s : R.App) (r : R.Resource) :
  In r (R.resources s) -> NoDup (map R.id (R.resources s)) ->
  Forall (fun r => (0 <= R.downloadCount r)%Z) (R.resources s) ->
  (R_sum (R.resources s) + 1 < two53)%Z ->
  let s' := R.handleDownload (R.id r) (R.title r) s in
  toZ (R.totalDownloads (R.resources s'))
  = (R.totalDownloads (R.resources s) + 1)%Z
  /\ R.alerts s' = R.alerts s ++ [lit "Descargando recurso: " ++ R.title r]
  /\ R.totalInteractions (R.resources s') = R.totalInteractions (R.resources s).
Proof.
  intros Hr Hnd Hn Hb s'. subst s'. rewrite R_download_resources.
  split; [|split; [reflexivity|]].
  - assert (Hm : R_matches (R.id r) (R.resources s) = 1%nat)
      by (unfold R_matches;
          apply (one_with_key R.id str_eqb str_eqb_eq _ r Hnd Hr)).
    rewrite R_total_bumped; rewrite ?Hm; [reflexivity | exact Hn | exact Hb].
  - clear. induction (R.resources s) as [|x l IH]; [reflexivity|].
    cbn [map]. rewrite !R_totalInteractions_cons, IH. unfold bumpResource.
    now destruct (str_eqb (R.id x) (R.id r)).
Qed.

Lemma R_card_download_counts_once_witness :
  toZ (R.totalDownloads (R.resources
         (R.handleDownload (R.id manual) (R.title manual) R.initial))) = 465%Z.
Proof.
  refine (proj1 (R_card_download_counts_once R.initial manual _ _ _ _)).
  - right. right. left. reflexivity.
  - repeat constructor; simpl; intuition discriminate.
  - repeat constructor; vm_compute; discriminate.
  - vm_compute. reflexivity.
Defined.

Lemma mostRequested_from (first : R.Resource) (rest : list R.Resource) :
  exists r l1 l2,
    fold_left (fun prev current =>
       if (R.downloadCount prev >? R.downloadCount current)%Z
       then prev else current) rest first = r
    /\ first :: rest = l1 ++ r :: l2
    /\ (forall x, In x l1 -> (R.downloadCount x <= R.downloadCount r)%Z)
    /\ (forall x, In x l2 -> (R.downloadCount x < R.downloadCount r)%Z).
Proof.
  induction rest as [|x rest IH] using rev_ind.
  - exists first, [], []. repeat split; intros x [].
  - destruct IH as (m & l1 & l2 & Hm & Hsplit & H1 & H2).
    rewrite fold_left_app. cbn [fold_left]. rewrite Hm.
    destruct (Z.gtb_spec (R.downloadCount m) (R.downloadCount x)) as [Hgt|Hle].
    + exists m, l1, (l2 ++ [x]). repeat split.
      * rewrite app_comm_cons, Hsplit, <- app_assoc. reflexivity.
      * exact H1.
      * intros y Hy. apply in_app_or in Hy. destruct Hy as [Hy|[<-|[]]].
        -- now apply H2.
        -- lia.
    + exists x, (first :: rest), []. repeat split.
      * intros y Hy. rewrite Hsplit in Hy.
        apply in_app_or in Hy. destruct Hy as [Hy|[<-|Hy]].
        -- specialize (H1 y Hy). lia.
        -- exact Hle.
        -- specialize (H2 y Hy). lia.
      * intros y [].
Qed.

(** X5. The most requested resource of the panel.  On an empty catalog the
    [reduce] without initial value throws.  Otherwise it is a resource of
    the catalog with the largest counter, and among several with the
    largest counter the last one of the list: no resource before it has a
    larger counter, and every resource after it has a smaller one. *)
Theorem R_mostRequested_is_last_maximum :
  R.mostRequested [] = None
  /\ forall rs : list R.Resource, rs <> [] ->
       exists r l1 l2,
         R.mostRequested rs = Some r
         /\ rs = l1 ++ r :: l2
         /\ (forall x, In x l1 -> (R.downloadCount x <= R.downloadCount r)%Z)
         /\ (forall x, In x l2 -> (R.downloadCount x < R.downloadCount r)%Z).
Proof.
  split; [reflexivity|].
  intros [|first rest] Hne; [congruence|].
  destruct (mostRequested_from first rest) as (r & l1 & l2 & Hr & H).
  exists r, l1, l2. split; [|exact H]. unfold R.mostRequested. now rewrite Hr.
Qed.

Lemma R_mostRequested_is_last_maximum_witness :
  exists r l1 l2,
    R.mostRequested R.INITIAL_RESOURCES = Some r
    /\ R.INITIAL_RESOURCES = l1 ++ r :: l2
    /\ (forall x, In x l1 -> (R.downloadCount x <= R.downloadCount r)%Z)
    /\ (forall x, In x l2 -> (R.downloadCount x < R.downloadCount r)%Z).
Proof.
  apply (proj2 R_mostRequested_is_last_maximum R.INITIAL_RESOURCES).
  discriminate.
Defined.

(** X6. After the add-comment mutation the number of interactions of the
    panel is the number before plus the number of resources with the
    given id, and the total of downloads is the same. *)
Theorem R_interactions_after_comment (clk : R.Clock)
    (id0 text0 author0 : jsstring) (s : R.App) :
  let s' := R.handleAddComment clk id0 text0 author0 s in
  R.totalInteractions (R.resources s')
  = (R.totalInteractions (R.resources s)
     + Z.of_nat (R_matches id0 (R.resources s)))%Z
  /\ R.totalDownloads (R.resources s') = R.totalDownloads (R.resources s).
Proof.
  intros s'. subst s'. rewrite R_addComment_resources. split.
  - unfold R_matches.
    induction (R.resources s) as [|r rs IH]; [reflexivity|].
    cbn [map filter]. rewrite !R_totalInteractions_cons, IH.
    unfold consComment.
    destruct (str_eqb (R.id r) id0);
      cbn [List.length R.comments R.with_comments]; lia.
  - unfold R.totalDownloads. apply jsSum_ext. rewrite map_map.
    apply map_ext. intros r. unfold consComment.
    now destruct (str_eqb (R.id r) id0).
Qed.

(* ------------------------------------------------------------------ *)
(** ** The data sent with the insight request *)

Lemma insertByCount_perm x l : Permutation (x :: l) (E.insertByCount x l).
Proof.
  induction l as [|y t IH]; simpl; [reflexivity|].
  destruct (E.count y - E.count x <=? 0)%Z; [reflexivity|].
  rewrite perm_swap. now apply perm_skip.
Qed.

Lemma insertByCount_sorted x l :
  StronglySorted (fun a b => (E.count b <= E.count a)%Z) l ->
  StronglySorted (fun a b => (E.count b <= E.count a)%Z) (E.insertByCount x l).
Proof.
  induction l as [|y t IH]; intros Hs; simpl.
  - constructor; constructor.
  - inversion Hs as [|? ? Ht Hy]; subst.
    destruct (Z.leb_spec (E.count y - E.count x) 0) as [Hle|Hgt].
    + constructor; [exact Hs|]. constructor; [lia|].
      eapply Forall_impl; [|exact Hy]. simpl. intros b Hb. lia.
    + constructor; [now apply IH|].
      apply (Permutation_Forall (insertByCount_perm x t)).
      constructor; [lia | exact Hy].
Qed.

Lemma insertByCount_filter k x l :
  filter (fun f => (E.count f =? k)%Z) (E.insertByCount x l)
  = if (E.count x =? k)%Z
    then x :: filter (fun f => (E.count f =? k)%Z) l
    else filter (fun f => (E.count f =? k)%Z) l.
Proof.
  induction l as [|y t IH]; simpl; [reflexivity|].
  destruct (Z.leb_spec (E.count y - E.count x) 0) as [Hle|Hgt];
    [reflexivity|].
  simpl. rewrite IH.
  destruct (Z.eqb_spec (E.count y) k), (Z.eqb_spec (E.count x) k);
    try reflexivity. lia.
Qed.

(** X7. The sort of the files by counter: the result holds the same files,
    larger counters first, and files with equal counters keep the order
    they had (the sort is stable). *)
Theorem E_sortByCount_sorts (l : list E.DownloadableFile) :
  Permutation l (E.sortByCount l)
  /\ StronglySorted (fun a b => (E.count b <= E.count a)%Z) (E.sortByCount l)
  /\ forall k, filter (fun f => (E.count f =? k)%Z) (E.sortByCount l)
               = filter (fun f => (E.count f =? k)%Z) l.
Proof.
  induction l as [|x l (IHp & IHs & IHf)]; simpl.
  - repeat split; constructor.
  - split; [|split].
    + rewrite <- insertByCount_perm. now apply perm_skip.
    + now apply insertByCount_sorted.
    + intros k. rewrite insertByCount_filter, IHf. reflexivity.
Qed.

Lemma sortByCount_perm l : Permutation l (E.sortByCount l).
Proof.
  induction l as [|x l IH]; simpl; [constructor|].
  rewrite <- insertByCount_perm. now apply perm_skip.
Qed.

Lemma sortByCount_sorted l :
  StronglySorted (fun a b => (E.count b <= E.count a)%Z) (E.sortByCount l).
Proof.
  induction l as [|x l IH]; simpl; [constructor|].
  now apply insertByCount_sorted.
Qed.

Lemma sorted_app_le (l1 l2 : list E.DownloadableFile) :
  StronglySorted (fun a b => (E.count b <= E.count a)%Z) (l1 ++ l2) ->
  forall a b, In a l1 -> In b l2 -> (E.count b <= E.count a)%Z.
Proof.
  induction l1 as [|x l1 IH]; intros Hs a b Ha Hb; [destruct Ha|].
  inversion Hs as [|? ? Ht Hx]; subst. destruct Ha as [<-|Ha].
  - rewrite Forall_forall in Hx. apply Hx. apply in_or_app. now right.
  - now apply (IH Ht a b).
Qed.

(** X8. The files named in the request are the most downloaded ones: the
    summary lists three files of the catalog (all of them when there are
    fewer), each as its file name followed by its counter in parentheses,
    and no file left out has a larger counter than a listed one. *)
Theorem E_top_files_are_most_downloaded (s : E.App) :
  exists top rest,
    Permutation (flat_map E.files (E.experiences s)) (top ++ rest)
    /\ E.top_files (E.summaryOf s)
       = map (fun f => E.filename f ++ lit " (" ++ toString (E.count f) ++ lit ")") top
    /\ List.length top
       = Nat.min 3 (List.length (flat_map E.files (E.experiences s)))
    /\ forall a b, In a top -> In b rest -> (E.count b <= E.count a)%Z.
Proof.
  set (all := flat_map E.files (E.experiences s)).
  exists (firstn 3 (E.sortByCount all)), (skipn 3 (E.sortByCount all)).
  split; [|split; [|split]].
  - rewrite firstn_skipn. apply sortByCount_perm.
  - reflexivity.
  - rewrite length_firstn.
    now rewrite <- (Permutation_length (sortByCount_perm all)).
  - apply sorted_app_le. rewrite firstn_skipn. apply sortByCount_sorted.
Qed.

(** X9. The newest comment is in the sample sent with the request: after
    the add-comment mutation the summary lists the text of the new
    comment first, followed by the texts of the four most recent earlier
    comments; the number of comments is one more; the figures about
    downloads are the same. *)
Theorem E_summary_after_comment (clk : E.Clock)
    (name0 email0 text0 : jsstring) (s : E.App) :
  let s' := E.handleAddComment clk name0 email0 text0 s in
  E.latest_comments (E.summaryOf s')
  = text0 :: map E.text (firstn 4 (E.comments s))
  /\ (List.length (E.latest_comments (E.summaryOf s')) <= 5)%nat
  /\ E.total_comments (E.summaryOf s')
     = (E.total_comments (E.summaryOf s) + 1)%Z
  /\ E.top_files (E.summaryOf s') = E.top_files (E.summaryOf s)
  /\ E.total_downloads (E.summaryOf s') = E.total_downloads (E.summaryOf s).
Proof.
  intros s'. subst s'. split; [reflexivity|]. split; [|split; [|split]].
  - cbn [E.latest_comments E.summaryOf]. rewrite length_map, length_firstn.
    apply Nat.le_min_l.
  - cbn [E.total_comments E.summaryOf E.comments E.handleAddComment
         E.setComments List.length]. lia.
  - reflexivity.
  - reflexivity.
Qed.

(** X10. The same in the first application: the request has one entry for
    each resource, in the order of the catalog, with at most three comment
    texts; after the add-comment mutation the entry of a resource with the
    given id lists the text of the new comment first, followed by the
    texts of its two most recent earlier comments. *)
Theorem R_summary_after_comment (clk : R.Clock)
    (id0 text0 author0 : jsstring) (s : R.App) :
  let s' := R.handleAddComment clk id0 text0 author0 s in
  map R.sum_title (R.dataSummary (R.resources s')) = map R.title (R.resources s)
  /\ Forall (fun en => (List.length (R.sum_recentComments en) <= 3)%nat)
            (R.dataSummary (R.resources s'))
  /\ forall i r, nth_error (R.resources s) i = Some r -> R.id r = id0 ->
       option_map R.sum_recentComments
         (nth_error (R.dataSummary (R.resources s')) i)
       = Some (text0 :: map R.text (firstn 2 (R.comments r))).
Proof.
  intros s'. subst s'. rewrite R_addComment_resources.
  unfold R.dataSummary. split; [|split].
  - rewrite !map_map. apply map_ext. intros r. unfold consComment.
    now destruct (str_eqb (R.id r) id0).
  - apply Forall_forall. intros en Hen.
    apply in_map_iff in Hen. destruct Hen as (r & <- & _).
    cbn [R.sum_recentComments]. rewrite length_map, length_firstn.
    apply Nat.le_min_l.
  - intros i r Hi Hid. rewrite !nth_error_map, Hi. cbn [option_map].
    unfold consComment. rewrite (proj2 (str_eqb_eq _ _) Hid). reflexivity.
Qed.

Lemma R_summary_after_comment_witness :
  option_map R.sum_recentComments
    (nth_error (R.dataSummary (R.resources
       (R.handleAddComment clockR (lit "1") (lit "Muy claro") (lit "Ana")
          R.initial))) 0)
  = Some (lit "Muy claro"
          :: map R.text (firstn 2 (R.comments (hd manual R.INITIAL_RESOURCES)))).
Proof.
  exact (proj2 (proj2 (R_summary_after_comment clockR (lit "1")
           (lit "Muy claro") (lit "Ana") R.initial)) 0%nat
           (hd manual R.INITIAL_RESOURCES) eq_refl eq_refl).
Defined.

(* ------------------------------------------------------------------ *)
(** ** The insight request from start to end, and the result area *)

(** X11. The insight handler from start to end.  In every case the
    catalog, the comments and the panels are as they were.  When the
    client constructor throws, no request is sent, the fallback message is
    the result and the in-progress flag is false.  Otherwise exactly one
    request is sent, whose data are computed from the catalog at the time
    of the call; when the call rejects the result is the fallback message
    and the flag is false; when it resolves the result is the text of the
    response and the flag is false; when it never settles the handler
    stays suspended: the flag stays true and there is no result. *)
Theorem analyze_outcomes :
  (forall (svc : R.Service) (s : R.App),
      let s' := R.analyzeWithGemini svc s in
      let q := {| R.req_model := lit "gemini-2.5-flash";
                  R.req_data := R.dataSummary (R.resources s) |} in
      R.resources s' = R.resources s
      /\ R.showStats s' = R.showStats s
      /\ match R.newGoogleGenAI svc, R.generateContent svc q with
         | Some _, _ => R.isAnalyzing s' = false
                        /\ R.requests s' = R.requests s
                        /\ R.aiAnalysis s' = Some R.fallback
         | None, Some (inl _) => R.isAnalyzing s' = false
                                 /\ R.requests s' = R.requests s ++ [q]
                                 /\ R.aiAnalysis s' = Some R.fallback
         | None, Some (inr txt) => R.isAnalyzing s' = false
                                   /\ R.requests s' = R.requests s ++ [q]
                                   /\ R.aiAnalysis s' = txt
                                   /\ R.console s' = R.console s
         | None, None => R.isAnalyzing s' = true
                         /\ R.requests s' = R.requests s ++ [q]
                         /\ R.aiAnalysis s' = None
         end)
  /\
  (forall (svc : E.Service) (s : E.App),
      let s' := E.analyzeWithGemini svc s in
      let q := {| E.req_model := lit "gemini-2.5-flash";
                  E.req_data :=
                    {| E.total_downloads := E.totalDownloads (E.experiences s);
                       E.total_comments := Z.of_nat (List.length (E.comments s));
                       E.top_files := E.top_files (E.summaryOf s);
                       E.latest_comments := E.latest_comments (E.summaryOf s) |} |} in
      E.experiences s' = E.experiences s
      /\ E.comments s' = E.comments s
      /\ E.showAdmin s' = E.showAdmin s
      /\ match E.newGoogleGenAI svc, E.generateContent svc q with
         | Some _, _ => E.isAnalyzing s' = false
                        /\ E.requests s' = E.requests s
                        /\ E.aiAnalysis s' = Some E.fallback
         | None, Some (inl _) => E.isAnalyzing s' = false
                                 /\ E.requests s' = E.requests s ++ [q]
                                 /\ E.aiAnalysis s' = Some E.fallback
         | None, Some (inr txt) => E.isAnalyzing s' = false
                                   /\ E.requests s' = E.requests s ++ [q]
                                   /\ E.aiAnalysis s' = txt
         | None, None => E.isAnalyzing s' = true
                         /\ E.requests s' = E.requests s ++ [q]
                         /\ E.aiAnalysis s' = None
         end).
Proof.
  split.
  - intros svc s s' q. subst s'.
    unfold R.analyzeWithGemini, R.analyzeStart.
    destruct (R.newGoogleGenAI svc) as [e|].
    + repeat split.
    + change (R.generateContent svc _) with (R.generateContent svc q).
      destruct (R.generateContent svc q) as [[e|txt]|]; repeat split.
  - intros svc s s' q. subst s'.
    unfold E.analyzeWithGemini, E.analyzeStart.
    destruct (E.newGoogleGenAI svc) as [e|].
    + repeat split.
    + change (E.generateContent svc _) with (E.generateContent svc q).
      destruct (E.generateContent svc q) as [[e|txt]|]; repeat split.
Qed.

Lemma splitOn_not_nil sep s : splitOn sep s <> [].
Proof.
  destruct s as [|c t]; simpl; [discriminate|].
  destruct (c =? sep)%N; [discriminate|].
  destruct (splitOn sep t); discriminate.
Qed.

Lemma join_splitOn sep s : join [sep] (splitOn sep s) = s.
Proof.
  induction s as [|c t IH]; [reflexivity|]. simpl.
  destruct (N.eqb_spec c sep) as [->|Hne].
  - destruct (splitOn sep t) as [|l ls] eqn:E;
      [now apply splitOn_not_nil in E|].
    simpl. now rewrite <- IH.
  - destruct (splitOn sep t) as [|l ls] eqn:E;
      [now apply splitOn_not_nil in E|].
    destruct ls as [|y r]; simpl in *; now rewrite <- IH.
Qed.

Lemma splitOn_pieces sep s : Forall (fun p => ~ In sep p) (splitOn sep s).
Proof.
  induction s as [|c t IH]; simpl.
  - constructor; [intros []|constructor].
  - destruct (N.eqb_spec c sep) as [->|Hne].
    + constructor; [intros []|exact IH].
    + destruct (splitOn sep t) as [|l ls]; [repeat constructor; simpl; tauto|].
      inversion IH; subst. constructor; [|assumption].
      simpl. intros [Heq|Hin]; [congruence | contradiction].
Qed.

Lemma splitOn_absent sep s :
  forallb (fun c => negb (c =? sep)%N) s = true -> splitOn sep s = [s].
Proof.
  induction s as [|c t IH]; intros H; [reflexivity|].
  simpl in H. apply andb_prop in H. destruct H as [Hc Ht].
  simpl. destruct (c =? sep)%N; [discriminate|]. now rewrite IH.
Qed.

Lemma splitOn_length sep s :
  List.length (splitOn sep s) = S (count_occ N.eq_dec s sep).
Proof.
  induction s as [|c t IH]; [reflexivity|]. simpl.
  destruct (N.eqb_spec c sep) as [->|Hne].
  - destruct (N.eq_dec sep sep); [|congruence]. simpl. now rewrite IH.
  - destruct (N.eq_dec c sep); [congruence|].
    destruct (splitOn sep t) as [|l ls]; simpl in *; [discriminate | exact IH].
Qed.

(** X12. The result area.  For a non-empty analysis text it shows the
    pieces of the text between line feeds: no piece holds a line feed,
    there is one more piece than line feeds, and the pieces joined by line
    feeds are the text.  It shows nothing when there is no analysis or
    when its text is empty, as after a response without text.  After a
    failed request it shows one paragraph, the fallback message. *)
Theorem paragraphs_of_the_analysis :
  (forall (s : R.App) (t : jsstring),
      R.aiAnalysis s = Some t -> t <> [] ->
      join [LF] (R.paragraphs s) = t
      /\ Forall (fun p => ~ In LF p) (R.paragraphs s)
      /\ List.length (R.paragraphs s) = S (count_occ N.eq_dec t LF))
  /\ (forall s : R.App,
        R.aiAnalysis s = None \/ R.aiAnalysis s = Some [] -> R.paragraphs s = [])
  /\ (forall (e : Error) (s : R.App),
        R.paragraphs (R.analyzeSettle (inl e) s) = [R.fallback])
  /\ (forall (s : E.App) (t : jsstring),
      E.aiAnalysis s = Some t -> t <> [] ->
      join [LF] (E.paragraphs s) = t
      /\ Forall (fun p => ~ In LF p) (E.paragraphs s)
      /\ List.length (E.paragraphs s) = S (count_occ N.eq_dec t LF))
  /\ (forall s : E.App,
        E.aiAnalysis s = None \/ E.aiAnalysis s = Some [] -> E.paragraphs s = [])
  /\ (forall (e : Error) (s : E.App),
        E.paragraphs (E.analyzeSettle (inl e) s) = [E.fallback]).
Proof.
  repeat match goal with |- _ /\ _ => split end.
  - intros s t H Hne. unfold R.paragraphs. rewrite H.
    destruct t as [|c t]; [congruence|]. cbn [truthy].
    split; [apply join_splitOn|]. split; [apply splitOn_pieces|].
    apply splitOn_length.
  - intros s [H|H]; unfold R.paragraphs; now rewrite H.
  - intros e s. unfold R.paragraphs, R.analyzeSettle.
    cbn [R.aiAnalysis R.setAiAnalysis R.setIsAnalyzing].
    assert (Ht : truthy R.fallback = true) by reflexivity. rewrite Ht.
    apply splitOn_absent. reflexivity.
  - intros s t H Hne. unfold E.paragraphs. rewrite H.
    destruct t as [|c t]; [congruence|]. cbn [truthy].
    split; [apply join_splitOn|]. split; [apply splitOn_pieces|].
    apply splitOn_length.
  - intros s [H|H]; unfold E.paragraphs; now rewrite H.
  - intros e s. unfold E.paragraphs, E.analyzeSettle.
    cbn [E.aiAnalysis E.setAiAnalysis E.setIsAnalyzing].
    assert (Ht : truthy E.fallback = true) by reflexivity. rewrite Ht.
    apply splitOn_absent. reflexivity.
Qed.

Lemma paragraphs_of_the_analysis_witness :
  join [LF] (R.paragraphs
     (R.setAiAnalysis (Some (lit "Uno" ++ [LF] ++ lit "Dos")) R.initial))
  = lit "Uno" ++ [LF] ++ lit "Dos"
  /\ R.paragraphs (R.setAiAnalysis (Some []) R.initial) = []
  /\ List.length (E.paragraphs
       (E.setAiAnalysis (Some (lit "Uno" ++ [LF] ++ lit "Dos")) E.initial))
     = 2%nat.
Proof.
  split; [|split].
  - refine (proj1 (proj1 paragraphs_of_the_analysis
       (R.setAiAnalysis (Some (lit "Uno" ++ [LF] ++ lit "Dos")) R.initial)
       (lit "Uno" ++ [LF] ++ lit "Dos") eq_refl _)).
    discriminate.
  - apply (proj1 (proj2 paragraphs_of_the_analysis)). right. reflexivity.
  - refine (proj2 (proj2 (proj1 (proj2 (proj2 (proj2 paragraphs_of_the_analysis)))
       (E.setAiAnalysis (Some (lit "Uno" ++ [LF] ++ lit "Dos")) E.initial)
       (lit "Uno" ++ [LF] ++ lit "Dos") eq_refl _))).
    discriminate.
Defined.

(* ------------------------------------------------------------------ *)
(** ** What every sequence of events keeps *)

Lemma Forall2_same {A} (P : A -> A -> Prop) (l : list A) :
  (forall x, P x x) -> Forall2 P l l.
Proof. intros H. induction l; constructor; auto. Qed.

Lemma Forall2_chain {A} (P : A -> A -> Prop) (l1 l2 l3 : list A) :
  (forall x y z, P x y -> P y z -> P x z) ->
  Forall2 P l1 l2 -> Forall2 P l2 l3 -> Forall2 P l1 l3.
Proof.
  intros Ht H12. revert l3.
  induction H12 as [|x y l1 l2 Hxy _ IH]; intros l3 H23;
    inversion H23; subst; constructor; eauto.
Qed.

Lemma Forall2_map_r {A} (P : A -> A -> Prop) (f : A -> A) (l : list A) :
  (forall x, P x (f x)) -> Forall2 P l (map f l).
Proof. intros H. induction l; simpl; constructor; auto. Qed.

Lemma R_grown_refl r : R_grown r r.
Proof. split; [lia | now exists []]. Qed.

Lemma R_grown_trans a b c : R_grown a b -> R_grown b c -> R_grown a c.
Proof.
  intros [H1 [n1 E1]] [H2 [n2 E2]]. split; [lia|].
  exists (n2 ++ n1). now rewrite E2, E1, app_assoc.
Qed.

Lemma R_grown_total l l' :
  Forall2 R_grown l l' -> (R.totalDownloads l <= R.totalDownloads l')%Z.
Proof.
  intros H. unfold R.totalDownloads. apply jsSum_mono; [|lia].
  eapply Forall2_impl; [|exact H]. intros r r' [Hc _]. exact Hc.
Qed.

(** One event of the first application. *)
Lemma R_step_keeps (s : R.App) (ev : R_Event) :
  map R_fixedPart (R.resources (R_step s ev)) = map R_fixedPart (R.resources s)
  /\ Forall2 R_grown (R.resources s) (R.resources (R_step s ev)).
Proof.
  destruct ev as [id0 title0|clk id0 text0 author0| |svc|outcome];
    try (split; [reflexivity | apply Forall2_same, R_grown_refl]).
  - cbn [R_step]. rewrite R_download_resources. split.
    + rewrite map_map. apply map_ext. intros r. unfold bumpResource.
      now destruct (str_eqb (R.id r) id0).
    + apply Forall2_map_r. intros r. unfold bumpResource.
      destruct (str_eqb (R.id r) id0); [|apply R_grown_refl].
      split; [|now exists []].
      cbn [R.downloadCount R.with_downloadCount]. apply jsAdd_one_ge.
  - cbn [R_step]. rewrite R_addComment_resources. split.
    + rewrite map_map. apply map_ext. intros r. unfold consComment.
      now destruct (str_eqb (R.id r) id0).
    + apply Forall2_map_r. intros r. unfold consComment.
      destruct (str_eqb (R.id r) id0); [|apply R_grown_refl].
      split; [cbn [R.downloadCount R.with_comments]; lia|].
      now exists [R.newCommentOf clk text0 author0].
  - cbn [R_step]. unfold R.analyzeStart.
    destruct (R.newGoogleGenAI svc);
      (split; [reflexivity | apply Forall2_same, R_grown_refl]).
  - cbn [R_step]. destruct outcome;
      (split; [reflexivity | apply Forall2_same, R_grown_refl]).
Qed.

(** X13. Whatever handlers of the first application run, and in whatever
    order, the catalog keeps its resources, in their order, with their
    ids, titles, descriptions, types and urls; no download counter
    decreases, nor their total; and no comment is removed, changed or
    moved: the comments of a resource before are the last comments of its
    list after. *)
Theorem R_run_keeps (evs : list R_Event) (s : R.App) :
  map R_fixedPart (R.resources (R_run evs s)) = map R_fixedPart (R.resources s)
  /\ Forall2 R_grown (R.resources s) (R.resources (R_run evs s))
  /\ (R.totalDownloads (R.resources s)
      <= R.totalDownloads (R.resources (R_run evs s)))%Z.
Proof.
  assert (H : map R_fixedPart (R.resources (R_run evs s))
              = map R_fixedPart (R.resources s)
              /\ Forall2 R_grown (R.resources s) (R.resources (R_run evs s))).
  { revert s. induction evs as [|ev evs IH]; intros s.
    - split; [reflexivity | apply Forall2_same, R_grown_refl].
    - cbn [R_run fold_left]. destruct (R_step_keeps s ev) as [H1 H2].
      destruct (IH (R_step s ev)) as [H3 H4]. split.
      + unfold R_run in H3. now rewrite H3.
      + exact (Forall2_chain R_grown_trans H2 H4). }
  destruct H as [H1 H2]. split; [exact H1|]. split; [exact H2|].
  now apply R_grown_total.
Qed.

Lemma E_grown_refl e : E_grown e e.
Proof. apply Forall2_same. intros f. lia. Qed.

Lemma E_grown_trans a b c : E_grown a b -> E_grown b c -> E_grown a c.
Proof. apply Forall2_chain. intros x y z. lia. Qed.

Lemma E_download_keeps expId fileId (s : E.App) :
  map E_fixedPart (E.experiences (E.handleDownload expId fileId s))
  = map E_fixedPart (E.experiences s)
  /\ Forall2 E_grown (E.experiences s)
       (E.experiences (E.handleDownload expId fileId s)).
Proof.
  rewrite E_download_experiences. split.
  - rewrite map_map. apply map_ext. intros e. unfold bumpExperience.
    destruct (negb (E.id e =? expId)%Z); [reflexivity|].
    unfold E_fixedPart. simpl. rewrite map_map. f_equal.
    apply map_ext. intros f. unfold bumpFile.
    now destruct (str_eqb (E.file_id f) fileId).
  - apply Forall2_map_r. intros e. unfold bumpExperience.
    destruct (negb (E.id e =? expId)%Z); [apply E_grown_refl|].
    unfold E_grown. simpl. apply Forall2_map_r. intros f. unfold bumpFile.
    destruct (str_eqb (E.file_id f) fileId); [|lia].
    cbn [E.count E.with_count]. apply jsAdd_one_ge.
Qed.

(** One event of the second application. *)
Lemma E_step_keeps (s : E.App) (ev : E_Event) :
  map E_fixedPart (E.experiences (E_step s ev)) = map E_fixedPart (E.experiences s)
  /\ Forall2 E_grown (E.experiences s) (E.experiences (E_step s ev))
  /\ exists newer, E.comments (E_step s ev) = newer ++ E.comments s.
Proof.
  destruct ev as [expId fileId|exp file|clk name0 email0 text0| |svc|outcome].
  - destruct (E_download_keeps expId fileId s) as [H1 H2].
    split; [exact H1|]. split; [exact H2 | now exists []].
  - destruct (E_download_keeps (E.id exp) (E.file_id file) s) as [H1 H2].
    split; [exact H1|]. split; [exact H2 | now exists []].
  - split; [reflexivity|]. split; [apply Forall2_same, E_grown_refl|].
    now exists [E.newCommentOf clk name0 email0 text0].
  - split; [reflexivity|]. split; [apply Forall2_same, E_grown_refl|].
    now exists [].
  - cbn [E_step]. unfold E.analyzeStart.
    destruct (E.newGoogleGenAI svc);
      (split; [reflexivity|]; split; [apply Forall2_same, E_grown_refl|];
       now exists []).
  - cbn [E_step]. destruct outcome;
      (split; [reflexivity|]; split; [apply Forall2_same, E_grown_refl|];
       now exists []).
Qed.

(** X14. Whatever handlers of the second application run, and in whatever
    order, the catalog keeps its experiences and their files, in their
    order, with their ids, titles, audio references, labels and file
    names; no counter of a file decreases; and the comments before are the
    last comments of the list after, unchanged. *)
Theorem E_run_keeps (evs : list E_Event) (s : E.App) :
  map E_fixedPart (E.experiences (E_run evs s)) = map E_fixedPart (E.experiences s)
  /\ Forall2 E_grown (E.experiences s) (E.experiences (E_run evs s))
  /\ exists newer, E.comments (E_run evs s) = newer ++ E.comments s.
Proof.
  revert s. induction evs as [|ev evs IH]; intros s.
  - split; [reflexivity|]. split; [apply Forall2_same, E_grown_refl|].
    now exists [].
  - cbn [E_run fold_left].
    destruct (E_step_keeps s ev) as (H1 & H2 & n1 & H3).
    destruct (IH (E_step s ev)) as (H4 & H5 & n2 & H6).
    unfold E_run in *. split; [now rewrite H4|].
    split; [exact (Forall2_chain E_grown_trans H2 H5)|].
    exists (n2 ++ n1). now rewrite H6, H3, app_assoc.
Qed.

(* ------------------------------------------------------------------ *)
(** ** How the handlers compose *)

(** X15. Submitting twice adds one comment.  An accepted submission empties
    the text field (and, in the second application, the whole form), so a
    second submission of the same form without typing is rejected whatever
    the clock: it returns the state of the first. *)
Theorem second_submit_is_rejected :
  (forall (clk clk' : R.Clock) (resource : R.Resource) (c : R.Card) (s : R.App),
      R.handleSubmitComment clk' resource
        (R.handleSubmitComment clk resource (c, s))
      = R.handleSubmitComment clk resource (c, s))
  /\
  (forall (clk clk' : E.Clock) (f : E.Form) (s : E.App),
      E.handleSubmit clk' (E.handleSubmit clk (f, s))
      = E.handleSubmit clk (f, s)).
Proof.
  split.
  - intros clk clk' resource c s.
    destruct (blank (R.newComment c)) eqn:B.
    + assert (H : R.handleSubmitComment clk resource (c, s) = (c, s)).
      { unfold R.handleSubmitComment. now rewrite trim_truthy, B. }
      rewrite H. unfold R.handleSubmitComment. now rewrite trim_truthy, B.
    + rewrite (R_submit_accepts clk resource c s B). reflexivity.
  - intros clk clk' f s.
    destruct (blank (E.name f)) eqn:B1.
    + assert (H : E.handleSubmit clk (f, s) = (f, s)).
      { unfold E.handleSubmit. now rewrite !trim_truthy, B1. }
      rewrite H. unfold E.handleSubmit. now rewrite !trim_truthy, B1.
    + destruct (blank (E.formText f)) eqn:B2.
      * assert (H : E.handleSubmit clk (f, s) = (f, s)).
        { unfold E.handleSubmit. rewrite !trim_truthy, B1, B2. reflexivity. }
        rewrite H. unfold E.handleSubmit.
        rewrite !trim_truthy, B1, B2. reflexivity.
      * rewrite (E_submit_accepts clk f s B1 B2). reflexivity.
Qed.

Lemma bumpFile_comm a b f : bumpFile a (bumpFile b f) = bumpFile b (bumpFile a f).
Proof.
  unfold bumpFile.
  destruct (str_eqb (E.file_id f) a) eqn:Ea, (str_eqb (E.file_id f) b) eqn:Eb;
    simpl; rewrite ?Ea, ?Eb; reflexivity.
Qed.

Lemma bumpExperience_comm x a y b e :
  bumpExperience x a (bumpExperience y b e)
  = bumpExperience y b (bumpExperience x a e).
Proof.
  unfold bumpExperience.
  destruct (E.id e =? x)%Z eqn:Ex, (E.id e =? y)%Z eqn:Ey;
    simpl; rewrite ?Ex, ?Ey; simpl; try reflexivity.
  unfold E.with_files. simpl. f_equal. rewrite !map_map.
  apply map_ext. intros f. apply bumpFile_comm.
Qed.

(** X16. In the second application the order of two downloads, and of a
    download and an added comment, does not matter: both orders end in the
    same component state. *)
Theorem E_mutations_commute :
  (forall (x y : Z) (a b : jsstring) (s : E.App),
      E.handleDownload x a (E.handleDownload y b s)
      = E.handleDownload y b (E.handleDownload x a s))
  /\
  (forall (x : Z) (a : jsstring) (clk : E.Clock)
          (name0 email0 text0 : jsstring) (s : E.App),
      E.handleDownload x a (E.handleAddComment clk name0 email0 text0 s)
      = E.handleAddComment clk name0 email0 text0 (E.handleDownload x a s)).
Proof.
  split.
  - intros x y a b s. unfold E.handleDownload, E.setExperiences. simpl.
    f_equal. rewrite !map_map.
    apply map_ext. intros e. apply (bumpExperience_comm x a y b e).
  - reflexivity.
Qed.

(** X17. In the first application the catalog after two downloads, after a
    download and an added comment, and after two added comments to
    resources with different ids, is the same in both orders. *)
Theorem R_mutations_commute :
  (forall (a b ta tb : jsstring) (s : R.App),
      R.resources (R.handleDownload a ta (R.handleDownload b tb s))
      = R.resources (R.handleDownload b tb (R.handleDownload a ta s)))
  /\
  (forall (a ta : jsstring) (clk : R.Clock) (id0 text0 author0 : jsstring)
          (s : R.App),
      R.resources (R.handleDownload a ta
                     (R.handleAddComment clk id0 text0 author0 s))
      = R.resources (R.handleAddComment clk id0 text0 author0
                       (R.handleDownload a ta s)))
  /\
  (forall (clk1 clk2 : R.Clock) (id1 id2 t1 t2 a1 a2 : jsstring) (s : R.App),
      id1 <> id2 ->
      R.resources (R.handleAddComment clk1 id1 t1 a1
                     (R.handleAddComment clk2 id2 t2 a2 s))
      = R.resources (R.handleAddComment clk2 id2 t2 a2
                       (R.handleAddComment clk1 id1 t1 a1 s))).
Proof.
  split; [|split].
  - intros a b ta tb s. simpl. rewrite !map_map.
    apply map_ext. intros r.
    destruct (str_eqb (R.id r) a) eqn:Ea, (str_eqb (R.id r) b) eqn:Eb;
      simpl; rewrite ?Ea, ?Eb; reflexivity.
  - intros a ta clk id0 text0 author0 s. simpl. rewrite !map_map.
    apply map_ext. intros r.
    destruct (str_eqb (R.id r) a) eqn:Ea, (str_eqb (R.id r) id0) eqn:Eb;
      simpl; rewrite ?Ea, ?Eb; reflexivity.
  - intros clk1 clk2 id1 id2 t1 t2 a1 a2 s Hne. simpl. rewrite !map_map.
    apply map_ext. intros r.
    destruct (str_eqb (R.id r) id1) eqn:E1, (str_eqb (R.id r) id2) eqn:E2;
      simpl; rewrite ?E1, ?E2; try reflexivity.
    apply str_eqb_eq in E1, E2. congruence.
Qed.

Lemma R_mutations_commute_witness :
  R.resources (R.handleAddComment clockR (lit "1") (lit "Muy claro") (lit "Ana")
                 (R.handleAddComment laterClockR (lit "2") (lit "Gracias") []
                    R.initial))
  = R.resources (R.handleAddComment laterClockR (lit "2") (lit "Gracias") []
                   (R.handleAddComment clockR (lit "1") (lit "Muy claro")
                      (lit "Ana") R.initial)).
Proof.
  apply (proj2 (proj2 R_mutations_commute)). discriminate.
Defined.

(* ------------------------------------------------------------------ *)
(** ** Reading the reports back *)

Lemma plain_quoteFree v : Csv.plain v = true -> Csv.quoteFree v = true.
Proof.
  unfold Csv.plain, Csv.quoteFree. rewrite !forallb_forall.
  intros H c Hc. specialize (H c Hc).
  now destruct (c =? QUOTE)%N.
Qed.






















(* ------------------------------------------------------------------ *)
(** ** Counting over a session *)

Lemma R_matches_bumped id0 b rs :
  R_matches id0 (map (bumpResource b) rs) = R_matches id0 rs.
Proof.
  unfold R_matches. rewrite filter_map_swap, length_map. f_equal.
  apply filter_ext. intros r. unfold bumpResource.
  now destruct (str_eqb (R.id r) b).
Qed.

Lemma E_matches_bumped x a y b es :
  E_matches x a (map (bumpExperience y b) es) = E_matches x a es.
Proof.
  induction es as [|e es IH]; [reflexivity|].
  cbn [map]. rewrite !E_matches_cons, IH. f_equal.
  unfold bumpExperience.
  destruct (negb (E.id e =? y)%Z); [reflexivity|].
  cbn [E.id E.files E.with_files].
  destruct (E.id e =? x)%Z; [|reflexivity].
  rewrite filter_map_swap, length_map. f_equal.
  apply filter_ext. intros f. unfold bumpFile.
  now destruct (str_eqb (E.file_id f) b).
Qed.

Lemma R_downloads_total (cards : list R.Resource) : forall s : R.App,
  R_nonneg (R.resources s) ->
  (R_sum (R.resources s)
   + Z.of_nat (list_sum (map (fun r => R_matches (R.id r) (R.resources s))
                             cards)) < two53)%Z ->
  toZ (R.totalDownloads (R.resources (R_downloads cards s)))
  = (R.totalDownloads (R.resources s)
     + Z.of_nat (list_sum (map (fun r => R_matches (R.id r) (R.resources s))
                               cards)))%Z.
Proof.
  induction cards as [|r cards IH]; intros s Hn Hb.
  - unfold R_downloads. cbn [fold_left map].
    change (list_sum []) with 0%nat. lia.
  - unfold R_downloads in *. cbn [fold_left map] in *.
    match goal with H : context [list_sum (?a :: ?l)] |- _ =>
      change (list_sum (a :: l)) with (a + list_sum l)%nat in H end.
    match goal with |- context [list_sum (?a :: ?l)] =>
      change (list_sum (a :: l)) with (a + list_sum l)%nat end.
    pose proof (R_sum_nonneg Hn) as Hs.
    assert (Hm : map (fun c => R_matches (R.id c)
                   (R.resources (R.handleDownload (R.id r) (R.title r) s))) cards
                 = map (fun c => R_matches (R.id c) (R.resources s)) cards)
      by (apply map_ext; intros c; rewrite R_download_resources;
          apply R_matches_bumped).
    rewrite IH; rewrite ?Hm, ?R_download_resources.
    + rewrite R_total_bumped by (try assumption; lia). lia.
    + now apply R_nonneg_bumped.
    + rewrite R_sum_bumped by (try assumption; lia). lia.
Qed.

Lemma E_downloads_total (ds : list (Z * jsstring)) : forall s : E.App,
  E_nonneg (E.experiences s) ->
  (E_sum (E.experiences s)
   + Z.of_nat (list_sum (map (fun d => E_matches (fst d) (snd d)
                                          (E.experiences s)) ds)) < two53)%Z ->
  toZ (E.totalDownloads (E.experiences (E_downloads ds s)))
  = (E.totalDownloads (E.experiences s)
     + Z.of_nat (list_sum (map (fun d => E_matches (fst d) (snd d)
                                            (E.experiences s)) ds)))%Z.
Proof.
  induction ds as [|d ds IH]; intros s Hn Hb.
  - unfold E_downloads. cbn [fold_left map].
    change (list_sum []) with 0%nat. lia.
  - unfold E_downloads in *. cbn [fold_left map] in *.
    match goal with H : context [list_sum (?a :: ?l)] |- _ =>
      change (list_sum (a :: l)) with (a + list_sum l)%nat in H end.
    match goal with |- context [list_sum (?a :: ?l)] =>
      change (list_sum (a :: l)) with (a + list_sum l)%nat end.
    pose proof (E_sum_nonneg Hn) as Hs.
    assert (Hm : map (fun c => E_matches (fst c) (snd c)
                   (E.experiences (E.handleDownload (fst d) (snd d) s))) ds
                 = map (fun c => E_matches (fst c) (snd c) (E.experiences s)) ds)
      by (apply map_ext; intros c; rewrite E_download_experiences;
          apply E_matches_bumped).
    rewrite IH; rewrite ?Hm, ?E_download_experiences.
    + rewrite E_total_bumped by (try assumption; lia). lia.
    + now apply E_nonneg_bumped.
    + rewrite E_sum_bumped by (try assumption; lia). lia.
Qed.

Lemma list_sum_ones {A} (g : A -> nat) (l : list A) :
  (forall x, In x l -> g x = 1%nat) -> list_sum (map g l) = List.length l.
Proof.
  induction l as [|x l IH]; intros H; [reflexivity|].
  simpl. rewrite (H x) by now left. simpl. f_equal. apply IH.
  intros y Hy. apply H. now right.
Qed.

(** X20. Counting is exact over a session.  With the unique ids of the
    data model, and counters that are non-negative with a sum that stays
    below 2^53, after any sequence of downloads from the cards of
    resources of the catalog (first application), or of files of
    experiences of the catalog (second application), the total of the
    panel is the total before plus the number of downloads: none is lost
    and none is counted twice, whatever the order and the repetitions. *)
Theorem totals_count_every_download :
  (forall (cards : list R.Resource) (s : R.App),
      NoDup (map R.id (R.resources s)) ->
      (forall r, In r cards -> In r (R.resources s)) ->
      Forall (fun r => (0 <= R.downloadCount r)%Z) (R.resources s) ->
      (R_sum (R.resources s) + Z.of_nat (List.length cards) < two53)%Z ->
      toZ (R.totalDownloads (R.resources (R_downloads cards s)))
      = (R.totalDownloads (R.resources s) + Z.of_nat (List.length cards))%Z)
  /\
  (forall (ds : list (Z * jsstring)) (s : E.App),
      NoDup (map E.id (E.experiences s)) ->
      (forall e, In e (E.experiences s) -> NoDup (map E.file_id (E.files e))) ->
      (forall d, In d ds ->
         exists e f, In e (E.experiences s) /\ In f (E.files e)
                     /\ E.id e = fst d /\ E.file_id f = snd d) ->
      Forall (fun e => Forall (fun f => (0 <= E.count f)%Z) (E.files e))
             (E.experiences s) ->
      (E_sum (E.experiences s) + Z.of_nat (List.length ds) < two53)%Z ->
      toZ (E.totalDownloads (E.experiences (E_downloads ds s)))
      = (E.totalDownloads (E.experiences s) + Z.of_nat (List.length ds))%Z).
Proof.
  split.
  - intros cards s Hnd Hin Hn Hb.
    assert (Hl : list_sum (map (fun r => R_matches (R.id r) (R.resources s))
                               cards) = List.length cards).
    { apply list_sum_ones. intros r Hr. unfold R_matches.
      apply (one_with_key R.id str_eqb str_eqb_eq _ r Hnd (Hin r Hr)). }
    rewrite R_downloads_total; rewrite ?Hl; [reflexivity | exact Hn | exact Hb].
  - intros ds s Hnd Hndf Hin Hn Hb.
    assert (Hl : list_sum (map (fun d => E_matches (fst d) (snd d)
                                            (E.experiences s)) ds)
                 = List.length ds).
    { apply list_sum_ones. intros d Hd.
      destruct (Hin d Hd) as (e & f & He & Hf & <- & <-).
      apply (E_matches_one _ _ _ Hnd He (Hndf e He) Hf). }
    rewrite E_downloads_total; rewrite ?Hl; [reflexivity | exact Hn | exact Hb].
Qed.

Lemma totals_count_every_download_witness :
  toZ (R.totalDownloads (R.resources (R_downloads [manual; manual] R.initial)))
  = 466%Z
  /\
  toZ (E.totalDownloads (E.experiences
    (E_downloads [(1%Z, lit "e1-f1"); (3%Z, lit "e3-f2"); (1%Z, lit "e1-f1")]
       E.initial))) = 3%Z.
Proof.
  split.
  - refine (proj1 totals_count_every_download [manual; manual] R.initial
              _ _ _ _).
    + repeat constructor; simpl; intuition discriminate.
    + intros r [<-|[<-|[]]]; right; right; left; reflexivity.
    + repeat constructor; vm_compute; discriminate.
    + vm_compute. reflexivity.
  - refine (proj2 totals_count_every_download
              [(1%Z, lit "e1-f1"); (3%Z, lit "e3-f2"); (1%Z, lit "e1-f1")]
              E.initial _ _ _ _ _).
    + repeat constructor; simpl; intuition discriminate.
    + intros e He. simpl in He.
      destruct He as [<-|[<-|[<-|[]]]];
        repeat constructor; simpl; intuition discriminate.
    + intros d [<-|[<-|[<-|[]]]].
      * exists (nth 0 E.INITIAL_EXPERIENCES quotedExperience),
               (nth 0 (E.files (nth 0 E.INITIAL_EXPERIENCES quotedExperience))
                    quotedFile).
        split; [left; reflexivity|]. split; [left; reflexivity|].
        split; vm_compute; reflexivity.
      * exists (nth 2 E.INITIAL_EXPERIENCES quotedExperience),
               (nth 1 (E.files (nth 2 E.INITIAL_EXPERIENCES quotedExperience))
                    quotedFile).
        split; [right; right; left; reflexivity|].
        split; [right; left; reflexivity|].
        split; vm_compute; reflexivity.
      * exists (nth 0 E.INITIAL_EXPERIENCES quotedExperience),
               (nth 0 (E.files (nth 0 E.INITIAL_EXPERIENCES quotedExperience))
                    quotedFile).
        split; [left; reflexivity|]. split; [left; reflexivity|].
        split; vm_compute; reflexivity.
    + repeat constructor; vm_compute; discriminate.
    + vm_compute. reflexivity.
Defined.

Lemma E_top_files_are_most_downloaded_witness :
  exists top rest,
    Permutation (flat_map E.files (E.experiences
                   (E.clickDownload quotedExperience quotedFile quotedCatalog)))
                (top ++ rest)
    /\ E.top_files (E.summaryOf
         (E.clickDownload quotedExperience quotedFile quotedCatalog))
       = map (fun f => E.filename f ++ lit " (" ++ toString (E.count f) ++ lit ")") top
    /\ List.length top
       = Nat.min 3 (List.length (flat_map E.files (E.experiences
           (E.clickDownload quotedExperience quotedFile quotedCatalog))))
    /\ forall a b, In a top -> In b rest -> (E.count b <= E.count a)%Z.
Proof.
  exact (E_top_files_are_most_downloaded
           (E.clickDownload quotedExperience quotedFile quotedCatalog)).
Defined.
